(** * FB_Hourly_Analysis: the revenue / spend metrics pipeline

    A shallow embedding of the table transformation of
    [src/FB_Hourly_Analysis.py] (lines 16-94): spend cleaning, the two
    group-by aggregations, the inner merge, the campaign-name merge, the
    per-campaign differencing, the derived metrics and the final rounding.

    Conventions of the embedding.
    - A data frame is the list of its rows, in row order.
    - A float64 column is a column of exact rationals ([Q]); a missing
      value (pandas NaN) is [None].  Sums, differences and quotients are
      the exact ones, and so is the rounding of line 87 ([round2]).
      numpy rounds the float64 product [x * 100], which near a tie can
      land on the other neighbouring hundredth (0.575 is shown as 0.57);
      what the statements say of a value shown is [rounded_to_2_places],
      which allows for the error of that product ([float_error]).
    - The float64 column 'campid' of the spend sheet holds integers or
      NaN; it is a column of [option Z], each integer rounded the way
      [float] rounds it.  The ids are taken to be finite floats: a number
      of 2^1024 or more in a name is inf in the script, where line 30
      raises; [finite_ids] is the hypothesis that no name holds one.
    - Strings are ASCII, so the regular expression class [\d] is ['0'..'9'].
    - An exception raised by a pandas call is a [Raise] of the [result]
      monad; the whole pipeline stops there, as the script does.
    - The worksheet of openpyxl is its dictionary of cells, keyed by
      (row, column) from 1, with the row counter [append] advances. *)

From Stdlib Require Import ZArith QArith Qabs Lqa Ascii String.
From stdpp Require Import base option list sorting strings gmap.

Open Scope Z_scope.

(** ** Python values and exceptions *)

Module Py.

Inductive exn : Set :=
| ValueError          (* int(nan): cannot convert float NaN to integer *)
| OverflowError       (* Python int too large for int64 *)
| ZeroDivisionError.

Inductive result (A : Type) : Type :=
| OK (a : A)
| Raise (e : exn).
Arguments OK {A} a.
Arguments Raise {A} e.

Definition bind {A B} (k : A → result B) (m : result A) : result B :=
  match m with
  | OK a => k a
  | Raise e => Raise e
  end.

#[export] Instance result_bind : MBind result := @bind.
#[export] Instance result_ret : MRet result := @OK.

(** A column computed row by row, stopping at the first exception. *)
Fixpoint traverse {A B} (f : A → result B) (l : list A) : result (list B) :=
  match l with
  | [] => OK []
  | x :: l' =>
      y ← f x; ys ← traverse f l'; OK (y :: ys)
  end.

(** [a / b] on Python numbers. *)
Definition div (a b : Q) : result Q :=
  if Qeq_bool b 0 then Raise ZeroDivisionError else OK (a / b)%Q.

(** [a > 0], [a < 0] on numbers. *)
Definition gt0 (a : Q) : bool := 0 <? Qnum a.
Definition lt0 (a : Q) : bool := Qnum a <? 0.

(** *** Regular expressions of the spend cleaner *)

Definition is_digit (c : ascii) : bool :=
  let n := nat_of_ascii c in
  (Nat.leb 48 n && Nat.leb n 57)%bool.

(** The longest prefix of digits, and what follows it ([\d+] is greedy). *)
Fixpoint span_digits (s : string) : string * string :=
  match s with
  | String c rest =>
      if is_digit c
      then let '(ds, tl) := span_digits rest in (String c ds, tl)
      else (EmptyString, s)
  | EmptyString => (EmptyString, EmptyString)
  end.

(** [re.search(r'\((\d+)\)', s)]: group 1 of the leftmost match. *)
Fixpoint search_paren_digits (s : string) : option string :=
  match s with
  | EmptyString => None
  | String c rest =>
      if Ascii.eqb c "("%char then
        match span_digits rest with
        | (String d ds, String c' _) =>
            if Ascii.eqb c' ")"%char then Some (String d ds)
            else search_paren_digits rest
        | _ => search_paren_digits rest
        end
      else search_paren_digits rest
  end.

(** [re.search(r'(\d+):', s)]: group 1 of the leftmost match. *)
Fixpoint search_digits_colon (s : string) : option string :=
  match s with
  | EmptyString => None
  | String c rest =>
      match span_digits (String c rest) with
      | (String d ds, String c' _) =>
          if Ascii.eqb c' ":"%char then Some (String d ds)
          else search_digits_colon rest
      | _ => search_digits_colon rest
      end
  end.

(** The value of a string of decimal digits ([int(s)], and [float(s)]
    before rounding). *)
Definition digit_value (c : ascii) : Z := Z.of_nat (nat_of_ascii c) - 48.

Fixpoint digits_value_from (acc : Z) (s : string) : Z :=
  match s with
  | EmptyString => acc
  | String c rest => digits_value_from (10 * acc + digit_value c) rest
  end.

Definition digits_value (s : string) : Z := digits_value_from 0 s.

(** *** Number conversions *)

(** [float(n)] for a non-negative integer: the nearest float64, ties to
    the even mantissa.  Exact below [2^53].  The exponent is not bounded
    here: a result of [2^1024] or more stands for the inf of the script. *)
Definition float64_of_int (n : Z) : Z :=
  if n <? 2 ^ 53 then n
  else
    let e := Z.log2 n - 52 in
    let q := Z.shiftr n e in
    let r := n - Z.shiftl q e in
    let half := Z.shiftl 1 (e - 1) in
    let q' := if ((half <? r) || ((r =? half) && Z.odd q))%bool
              then q + 1 else q in
    Z.shiftl q' e.

(** [astype(int)] of an integral float64: the value when it fits int64;
    the cast of a larger value is the machine's, [-2^63] on x86-64. *)
Definition int64_of_float (x : Z) : Z :=
  if x <? 2 ^ 63 then x else - 2 ^ 63.

(** [astype(int)] of an object column of digit strings and NaN. *)
Definition int64_of_object (o : option string) : result Z :=
  match o with
  | None => Raise ValueError
  | Some s =>
      let n := digits_value s in
      if n <? 2 ^ 63 then OK n else Raise OverflowError
  end.

(** [numpy.rint]: the nearest integer, ties to even. *)
Definition rint (x : Q) : Z :=
  let n := Qnum x in
  let d := Z.pos (Qden x) in
  let f := n / d in
  let r := n mod d in
  match 2 * r ?= d with
  | Lt => f
  | Gt => f + 1
  | Eq => if Z.even f then f else f + 1
  end.

(** [numpy.round(x, 2)] is [rint(x * 100) / 100]; here the product and
    the quotient are the exact ones. *)
Definition round2 (x : Q) : Q :=
  Qred (inject_Z (rint (x * 100)) / 100).

End Py.

Import Py.

(** ** Data frames *)

(** One row of the concatenated revenue files (line 19). *)
Record RevenueRecord := {
  rv_campid : Z;
  rv_hour : Z;
  rv_estimated_earnings : option Q;
  rv_clicks : option Q
}.

(** One row of the spend sheet (line 22), by its four used columns:
    'Ad set name', 'Time of day (ad account time zone)',
    'Amount spent (USD)' and 'Results'. *)
Record SpendRecord := {
  ad_set_name : string;
  time_of_day : string;
  amount_spent : option Q;
  results : option Q
}.

(** [spend_data] once the columns 'campid' (float64, NaN when the name has
    no match) and 'hour' (int64) are added (lines 25-26). *)
Record SpendData := {
  sd_record : SpendRecord;
  sd_campid : option Z;
  sd_hour : Z
}.

(** A row of [spend_cleaned] (lines 27-30), and of its aggregation
    (lines 43-46). *)
Record CleanedSpend := {
  cs_campid : Z;
  cs_hour : Z;
  hourly_spend : Q;
  hourly_results : Q
}.

(** A row of the aggregated [revenue_filtered] (lines 37-40). *)
Record AggregatedRevenue := {
  ar_campid : Z;
  ar_hour : Z;
  ar_estimated_earnings : Q;
  ar_total_clicks : Q
}.

(** A row of [merged_data] after the inner merge (lines 49-54). *)
Record MergedRow := {
  campid : Z;
  hour : Z;
  estimated_earnings : Q;
  total_clicks : Q;
  m_hourly_spend : Q;
  m_hourly_results : Q
}.

(** A row of [merged_data] with its 'campaign_name' (line 59); the name is
    missing when the left merge finds no partner. *)
Record NamedRow := {
  nr_row : MergedRow;
  campaign_name : option string
}.

(** A row of the report: the columns of lines 90-94, in that order. *)
Record MetricsRow := {
  o_campid : Z;
  o_campaign_name : option string;
  o_hour : Z;
  o_hourly_spend : Q;
  o_hourly_results : Q;
  o_estimated_earnings : Q;
  o_total_clicks : Q;
  hourly_revenue : Q;
  hourly_clicks : Q;
  hourly_cpr : Q;
  hourly_rpc : Q;
  profit : Q;
  roi : Q;
  profit_loss : string
}.

Definition key : Type := Z * Z.

Definition rv_key (r : RevenueRecord) : key := (rv_campid r, rv_hour r).
Definition cs_key (r : CleanedSpend) : key := (cs_campid r, cs_hour r).
Definition ar_key (r : AggregatedRevenue) : key := (ar_campid r, ar_hour r).
Definition m_key (r : MergedRow) : key := (campid r, hour r).
Definition o_key (r : MetricsRow) : key := (o_campid r, o_hour r).

(** ** pandas operations *)

(** [Series.unique] and [DataFrame.drop_duplicates]: the first occurrence
    of every value, in row order. *)
Fixpoint unique_from {A} `{EqDecision A} (seen l : list A) : list A :=
  match l with
  | [] => []
  | x :: l' =>
      if decide (x ∈ seen) then unique_from seen l'
      else x :: unique_from (x :: seen) l'
  end.

Definition drop_duplicates {A} `{EqDecision A} (l : list A) : list A :=
  unique_from [] l.

(** The ['sum'] of [agg]: the sum of a column; on a column with missing
    values, the sum of the others. *)
Definition agg_sum (l : list Q) : Q := foldl Qplus 0%Q l.
Definition agg_sum_skipna (l : list (option Q)) : Q := agg_sum (omap id l).

(** The order of the group keys of [groupby(['campid', 'hour'])], whose
    default is [sort=True]. *)
Definition key_le (a b : key) : Prop :=
  a.1 < b.1 ∨ (a.1 = b.1 ∧ a.2 ≤ b.2).

#[export] Instance key_le_dec : RelDecision key_le.
Proof. intros a b. unfold key_le. apply _. Defined.

Definition group_keys (ks : list key) : list key :=
  merge_sort key_le (remove_dups ks).

(** [groupby(col).diff()]: for each row, the value minus the value of the
    previous row of the same group; missing for the first row of a group.
    [seen] holds the rows already passed, the latest first. *)
Fixpoint group_diff {A} (grp : A → Z) (col : A → Q) (seen rows : list A)
  : list (option Q) :=
  match rows with
  | [] => []
  | r :: rest =>
      ((λ p, col r - col p)%Q <$> head (filter (λ p, grp p = grp r) seen))
        :: group_diff grp col (r :: seen) rest
  end.

(** [s.fillna(v)], row by row. *)
Definition fillna (s : list (option Q)) (v : list Q) : list Q :=
  zip_with (λ o x, default x o) s v.

(** ** The metrics pipeline (lines 16-94) *)

(** Line 25: the float64 column 'campid'. *)
Definition campid_of_name (name : string) : option Z :=
  (λ ds, float64_of_int (digits_value ds)) <$> search_paren_digits name.

(** Line 26: the int64 column 'hour'. *)
Definition hour_of_label (label : string) : result Z :=
  int64_of_object (search_digits_colon label).

Definition add_campid_hour (r : SpendRecord) : result SpendData :=
  h ← hour_of_label (time_of_day r);
  OK {| sd_record := r;
        sd_campid := campid_of_name (ad_set_name r);
        sd_hour := h |}.

Definition spend_data (spend : list SpendRecord) : result (list SpendData) :=
  traverse add_campid_hour spend.

(** Lines 27-29: the four columns, renamed, without the rows that miss a
    value.  'campid' is still the float. *)
Definition dropna (r : SpendData) : option CleanedSpend :=
  c ← sd_campid r;
  a ← amount_spent (sd_record r);
  n ← results (sd_record r);
  Some {| cs_campid := c; cs_hour := sd_hour r;
          hourly_spend := a; hourly_results := n |}.

(** Line 30, on finite ids (see [finite_ids]). *)
Definition campid_astype_int (r : CleanedSpend) : CleanedSpend :=
  {| cs_campid := int64_of_float (cs_campid r); cs_hour := cs_hour r;
     hourly_spend := hourly_spend r; hourly_results := hourly_results r |}.

Definition spend_cleaned (sd : list SpendData) : list CleanedSpend :=
  campid_astype_int <$> omap dropna sd.

(** Lines 33-34. *)
Definition matching_campaigns (cleaned : list CleanedSpend) : list Z :=
  drop_duplicates (cs_campid <$> cleaned).

Definition revenue_filtered (revenue_data : list RevenueRecord)
    (matching : list Z) : list RevenueRecord :=
  filter (λ r, rv_campid r ∈ matching) revenue_data.

(** Lines 37-40. *)
Definition aggregate_revenue (rows : list RevenueRecord)
  : list AggregatedRevenue :=
  (λ k, let g := filter (λ r, rv_key r = k) rows in
        {| ar_campid := k.1; ar_hour := k.2;
           ar_estimated_earnings := agg_sum_skipna (rv_estimated_earnings <$> g);
           ar_total_clicks := agg_sum_skipna (rv_clicks <$> g) |})
    <$> group_keys (rv_key <$> rows).

(** Lines 43-46. *)
Definition aggregate_spend (rows : list CleanedSpend) : list CleanedSpend :=
  (λ k, let g := filter (λ r, cs_key r = k) rows in
        {| cs_campid := k.1; cs_hour := k.2;
           hourly_spend := agg_sum (hourly_spend <$> g);
           hourly_results := agg_sum (hourly_results <$> g) |})
    <$> group_keys (cs_key <$> rows).

(** Lines 49-54: [pd.merge(..., on=['campid', 'hour'], how='inner')], the
    pairs of rows with equal keys, in the order of the left frame. *)
Definition merge_inner (left : list AggregatedRevenue)
    (right : list CleanedSpend) : list MergedRow :=
  l ← left;
  r ← filter (λ r, cs_key r = ar_key l) right;
  [ {| campid := ar_campid l; hour := ar_hour l;
       estimated_earnings := ar_estimated_earnings l;
       total_clicks := ar_total_clicks l;
       m_hourly_spend := hourly_spend r;
       m_hourly_results := hourly_results r |} ].

(** Lines 57-58: the distinct ('campid', 'Ad set name') rows of
    [spend_data]. *)
Definition campaign_name_mapping (sd : list SpendData)
  : list (option Z * string) :=
  drop_duplicates ((λ r, (sd_campid r, ad_set_name (sd_record r))) <$> sd).

(** Line 59: [pd.merge(..., on='campid', how='left')]: every left row once
    per partner in the mapping, or once without a name when it has none. *)
Definition merge_left (left : list MergedRow)
    (mapping : list (option Z * string)) : list NamedRow :=
  m ← left;
  match filter (λ p, p.1 = Some (campid m)) mapping with
  | [] => [ {| nr_row := m; campaign_name := None |} ]
  | ps => (λ p, {| nr_row := m; campaign_name := Some p.2 |}) <$> ps
  end.

(** Lines 62-63. *)
Definition hourly_revenue_col (rows : list NamedRow) : list Q :=
  fillna (group_diff (campid ∘ nr_row) (estimated_earnings ∘ nr_row) [] rows)
         ((estimated_earnings ∘ nr_row) <$> rows).

Definition hourly_clicks_col (rows : list NamedRow) : list Q :=
  fillna (group_diff (campid ∘ nr_row) (total_clicks ∘ nr_row) [] rows)
         ((total_clicks ∘ nr_row) <$> rows).

(** Lines 80-82. *)
Definition classify (x : Q) : string :=
  if gt0 x then "Profit" else if lt0 x then "Loss" else "Break-Even".

(** Lines 66-82, for one row.  Each [apply] works row by row and reads
    only that row, so the metrics of a row are written here together. *)
Definition derive_row (r : NamedRow) (revenue clicks : Q)
  : result MetricsRow :=
  let m := nr_row r in
  rpc ← (if gt0 clicks then div revenue clicks else OK 0%Q);
  cpr ← (if gt0 (m_hourly_results m)
         then div (m_hourly_spend m) (m_hourly_results m) else OK 0%Q);
  let p := (revenue - m_hourly_spend m)%Q in
  r_o_i ← (if gt0 (m_hourly_spend m)
           then q ← div p (m_hourly_spend m); OK (q * 100)%Q else OK 0%Q);
  OK {| o_campid := campid m; o_campaign_name := campaign_name r;
        o_hour := hour m;
        o_hourly_spend := m_hourly_spend m;
        o_hourly_results := m_hourly_results m;
        o_estimated_earnings := estimated_earnings m;
        o_total_clicks := total_clicks m;
        hourly_revenue := revenue; hourly_clicks := clicks;
        hourly_cpr := cpr; hourly_rpc := rpc;
        profit := p; roi := r_o_i;
        profit_loss := classify p |}.

Definition derive (rows : list NamedRow) : result (list MetricsRow) :=
  traverse (λ t, derive_row t.1.1 t.1.2 t.2)
    (zip (zip rows (hourly_revenue_col rows)) (hourly_clicks_col rows)).

(** Lines 85-87: the ten numeric columns, rounded to 2 places. *)
Definition round_row (r : MetricsRow) : MetricsRow :=
  {| o_campid := o_campid r; o_campaign_name := o_campaign_name r;
     o_hour := o_hour r;
     o_hourly_spend := round2 (o_hourly_spend r);
     o_hourly_results := round2 (o_hourly_results r);
     o_estimated_earnings := round2 (o_estimated_earnings r);
     o_total_clicks := round2 (o_total_clicks r);
     hourly_revenue := round2 (hourly_revenue r);
     hourly_clicks := round2 (hourly_clicks r);
     hourly_cpr := round2 (hourly_cpr r);
     hourly_rpc := round2 (hourly_rpc r);
     profit := round2 (profit r);
     roi := round2 (roi r);
     profit_loss := profit_loss r |}.

(** The frames of the script, by the line that builds them. *)
Definition merged_data (revenue_data : list RevenueRecord)
    (sd : list SpendData) : list MergedRow :=
  let cleaned := spend_cleaned sd in
  merge_inner
    (aggregate_revenue
       (revenue_filtered revenue_data (matching_campaigns cleaned)))
    (aggregate_spend cleaned).

Definition named_data (revenue_data : list RevenueRecord)
    (sd : list SpendData) : list NamedRow :=
  merge_left (merged_data revenue_data sd) (campaign_name_mapping sd).

Definition metrics_pipeline (revenue_data : list RevenueRecord)
    (spend : list SpendRecord) : result (list MetricsRow) :=
  sd ← spend_data spend;
  derived ← derive (named_data revenue_data sd);
  OK (round_row <$> (derived : list MetricsRow)).

(** Rows with all their values present, for the examples. *)
Definition revenue_row (c h : Z) (e k : Q) : RevenueRecord :=
  {| rv_campid := c; rv_hour := h;
     rv_estimated_earnings := Some e; rv_clicks := Some k |}.

Definition spend_row (name label : string) (a r : Q) : SpendRecord :=
  {| ad_set_name := name; time_of_day := label;
     amount_spent := Some a; results := Some r |}.

(** ** The workbook (lines 96-126) *)

(** What a cell holds: nothing, a missing value of the frame, a number or
    a string. *)
Inductive CellValue : Type :=
| VNone
| VNaN
| VNumber (x : Q)
| VString (s : string).

Record PatternFill := {
  start_color : string;
  end_color : string;
  fill_type : string
}.

Record Font := { bold : bool }.

Record Alignment := { horizontal : string; vertical : string }.

(** A cell with its value and the three styles the script sets; [None] is
    the default style. *)
Record Cell := {
  value : CellValue;
  fill : option PatternFill;
  font : option Font;
  alignment : option Alignment
}.

Record Worksheet := {
  title : string;
  cells : gmap (nat * nat) Cell;
  current_row : nat
}.

Definition new_cell (v : CellValue) : Cell :=
  {| value := v; fill := None; font := None; alignment := None |}.

(** [Workbook().active] (lines 98-99). *)
Definition active : Worksheet :=
  {| title := "Sheet"; cells := ∅; current_row := 0 |}.

Definition set_title (t : string) (ws : Worksheet) : Worksheet :=
  {| title := t; cells := cells ws; current_row := current_row ws |}.

(** [ws.append(values)]: the values in a new row below the last one, from
    column 1. *)
Fixpoint write_row (row col : nat) (values : list CellValue)
    (m : gmap (nat * nat) Cell) : gmap (nat * nat) Cell :=
  match values with
  | [] => m
  | v :: vs => write_row row (S col) vs (<[(row, col) := new_cell v]> m)
  end.

Definition append (values : list CellValue) (ws : Worksheet) : Worksheet :=
  let row := S (current_row ws) in
  {| title := title ws;
     cells := write_row row 1 values (cells ws);
     current_row := row |}.

(** [ws.cell(row, column)]: the cell there; a cell that is not there is
    made, empty.  [set_cell] is the sheet once the cell is in it. *)
Definition cell (row column : nat) (ws : Worksheet) : Cell :=
  default (new_cell VNone) (cells ws !! (row, column)).

Definition set_cell (row column : nat) (c : Cell) (ws : Worksheet)
  : Worksheet :=
  {| title := title ws;
     cells := <[(row, column) := c]> (cells ws);
     current_row := current_row ws `max` row |}.

(** [ws.max_row]: 1 on a sheet without cells, else the last row that has
    a cell. *)
Definition max_row (ws : Worksheet) : nat :=
  match (λ kc, kc.1.1) <$> map_to_list (cells ws) with
  | [] => 1%nat
  | rows => max_list rows
  end.

(** [str.upper] on ASCII. *)
Definition upper_char (c : ascii) : ascii :=
  let n := nat_of_ascii c in
  if (Nat.leb 97 n && Nat.leb n 122)%bool then ascii_of_nat (n - 32) else c.

Fixpoint upper (s : string) : string :=
  match s with
  | EmptyString => EmptyString
  | String c rest => String (upper_char c) (upper rest)
  end.

(** [list.index(x)]: the first position of [x], from 0; ValueError when
    it is not in the list. *)
Fixpoint index_from (i : nat) (x : string) (l : list string) : result nat :=
  match l with
  | [] => Raise ValueError
  | y :: l' => if String.eqb y x then OK i else index_from (S i) x l'
  end.

Definition index (x : string) (l : list string) : result nat :=
  index_from 0 x l.

(** The columns of [merged_data] after line 90. *)
Definition columns : list string :=
  ["campid"; "campaign_name"; "hour"; "hourly_spend"; "hourly_results";
   "estimated_earnings"; "total_clicks"; "hourly_revenue"; "hourly_clicks";
   "hourly_cpr"; "hourly_rpc"; "profit"; "roi"; "profit_loss"]%string.

(** Line 114: [dataframe_to_rows(merged_data, index=False, header=False)],
    the values of each row in the order of the columns. *)
Definition row_values (r : MetricsRow) : list CellValue :=
  [ VNumber (inject_Z (o_campid r));
    match o_campaign_name r with Some s => VString s | None => VNaN end;
    VNumber (inject_Z (o_hour r));
    VNumber (o_hourly_spend r); VNumber (o_hourly_results r);
    VNumber (o_estimated_earnings r); VNumber (o_total_clicks r);
    VNumber (hourly_revenue r); VNumber (hourly_clicks r);
    VNumber (hourly_cpr r); VNumber (hourly_rpc r);
    VNumber (profit r); VNumber (roi r);
    VString (profit_loss r) ].

Definition dataframe_to_rows (report : list MetricsRow)
  : list (list CellValue) :=
  row_values <$> report.

(** Lines 104-111. *)
Definition header_fill : PatternFill :=
  {| start_color := "FFFF00"; end_color := "FFFF00"; fill_type := "solid" |}.

Definition header_font : Font := {| bold := true |}.

Definition style_header (ws : Worksheet) (col : nat) : Worksheet :=
  let c := cell 1 col ws in
  set_cell 1 col
    {| value := value c; fill := Some header_fill; font := Some header_font;
       alignment := Some {| horizontal := "center"; vertical := "center" |} |}
    ws.

(** Lines 120-126. *)
Definition solid (color : string) : PatternFill :=
  {| start_color := color; end_color := color; fill_type := "solid" |}.

Definition with_fill (f : PatternFill) (c : Cell) : Cell :=
  {| value := value c; fill := Some f; font := font c;
     alignment := alignment c |}.

Definition value_is (v : CellValue) (s : string) : bool :=
  match v with
  | VString s' => String.eqb s' s
  | _ => false
  end.

Definition color_code (c : Cell) : Cell :=
  if value_is (value c) "Profit" then with_fill (solid "DFFFD6") c
  else if value_is (value c) "Loss" then with_fill (solid "FFD6D6") c
  else if value_is (value c) "Break-Even" then with_fill (solid "FFFFE0") c
  else c.

(** Line 119: [iter_rows] over one column visits, and so makes, the cell
    of every row from [min_row] to [max_row]. *)
Definition color_row (col : nat) (ws : Worksheet) (row : nat) : Worksheet :=
  set_cell row col (color_code (cell row col ws)) ws.

(** Lines 97-126: the sheet "Campaign Metrics" of a report. *)
Definition campaign_metrics_sheet (report : list MetricsRow)
  : result Worksheet :=
  let ws := set_title "Campaign Metrics" active in
  let headers := upper <$> columns in
  let ws := append (VString <$> headers) ws in
  let ws := foldl style_header ws (seq 1 (length headers)) in
  let ws := foldl (λ ws row, append row ws) ws (dataframe_to_rows report) in
  i ← index "PROFIT_LOSS" headers;
  let profit_loss_col := (i + 1)%nat in
  OK (foldl (color_row profit_loss_col) ws (seq 2 (max_row ws - 1))).

(** ** Notions of the statements *)

(** The strict order of the keys. *)
Definition key_lt (a b : key) : Prop :=
  a.1 < b.1 ∨ (a.1 = b.1 ∧ a.2 < b.2).

(** The row of the same campaign that comes last before [r] in the rows
    [pre] above it. *)
Definition previous_row (pre : list NamedRow) (r : NamedRow)
  : option NamedRow :=
  last (filter (λ p, campid (nr_row p) = campid (nr_row r)) pre).

(** Every campaign id has one ad-set name in the name mapping. *)
Definition one_name_per_campaign (sd : list SpendData) : Prop :=
  ∀ c s1 s2,
    (Some c, s1) ∈ campaign_name_mapping sd →
    (Some c, s2) ∈ campaign_name_mapping sd → s1 = s2.

(** What lines 66-82 promise of a row, on its unrounded values. *)
Definition metric_equations (r : MetricsRow) : Prop :=
  ((0 < hourly_clicks r)%Q →
     hourly_rpc r = (hourly_revenue r / hourly_clicks r)%Q) ∧
  (¬ (0 < hourly_clicks r)%Q → hourly_rpc r = 0%Q) ∧
  ((0 < o_hourly_results r)%Q →
     hourly_cpr r = (o_hourly_spend r / o_hourly_results r)%Q) ∧
  (¬ (0 < o_hourly_results r)%Q → hourly_cpr r = 0%Q) ∧
  ((0 < o_hourly_spend r)%Q →
     roi r = (profit r / o_hourly_spend r * 100)%Q) ∧
  (¬ (0 < o_hourly_spend r)%Q → roi r = 0%Q) ∧
  profit r = (hourly_revenue r - o_hourly_spend r)%Q ∧
  profit_loss r = classify (profit r).

(** A string of decimal digits, and a number: a string of at least one. *)
Fixpoint all_digits (s : string) : bool :=
  match s with
  | EmptyString => true
  | String c rest => is_digit c && all_digits rest
  end.

Definition number (ds : string) : Prop :=
  ds ≠ EmptyString ∧ all_digits ds = true.

(** The match of [\((\d+)\)], and of [(\d+):], at the start of a string. *)
Definition paren_here (s : string) : option string :=
  match s with
  | String c rest =>
      if Ascii.eqb c "("%char then
        match span_digits rest with
        | (String d ds, String c' _) =>
            if Ascii.eqb c' ")"%char then Some (String d ds) else None
        | _ => None
        end
      else None
  | EmptyString => None
  end.

Definition colon_here (s : string) : option string :=
  match span_digits s with
  | (String d ds, String c' _) =>
      if Ascii.eqb c' ":"%char then Some (String d ds) else None
  | _ => None
  end.

(** The spend rows that name the same campaign id carry the same ad-set
    name. *)
Definition one_name_per_id (spend : list SpendRecord) : Prop :=
  ∀ r1 r2, r1 ∈ spend → r2 ∈ spend →
    is_Some (campid_of_name (ad_set_name r1)) →
    campid_of_name (ad_set_name r1) = campid_of_name (ad_set_name r2) →
    ad_set_name r1 = ad_set_name r2.

(** The aggregated earnings and clicks of a key: the sums of the present
    values of the revenue rows with that campaign id and hour. *)
Definition earnings_of (revenue_data : list RevenueRecord) (k : key) : Q :=
  agg_sum_skipna
    (rv_estimated_earnings <$> filter (λ v, rv_key v = k) revenue_data).

Definition clicks_of (revenue_data : list RevenueRecord) (k : key) : Q :=
  agg_sum_skipna (rv_clicks <$> filter (λ v, rv_key v = k) revenue_data).

(** Every campaign id of the spend sheet is a finite float64: [float]
    gives inf from 2^1024 on, and line 30 raises on an inf that [dropna]
    has kept. *)
Definition finite_ids (spend : list SpendRecord) : Prop :=
  Forall (λ r, ∀ ds, search_paren_digits (ad_set_name r) = Some ds →
                     float64_of_int (digits_value ds) < 2 ^ 1024) spend.

(** Line 85: the columns that line 87 rounds. *)
Definition numeric_cols : list (MetricsRow → Q) :=
  [o_hourly_spend; o_hourly_results; o_estimated_earnings; o_total_clicks;
   hourly_revenue; hourly_clicks; hourly_rpc; hourly_cpr; profit; roi].

(** The rounding errors of the float64 nearest to [x] and of the float64
    product by 100, taken together, stay below this on [x * 100]. *)
Definition float_error (x : Q) : Q := (Qabs x / inject_Z (2 ^ 45))%Q.

(** A value as it is shown with 2 decimal places: a whole number [k] of
    hundredths, with [k] within 1/2 of [x * 100] up to that error. *)
Definition rounded_to_2_places (x shown : Q) : Prop :=
  ∃ k : Z, shown = Qred (inject_Z k / 100) ∧
           (x * 100 - (1 # 2) - float_error x <= inject_Z k
            <= x * 100 + (1 # 2) + float_error x)%Q.

(** A row of the report beside the row computed: the ten numeric columns
    shown with 2 decimal places, the other four columns as they are. *)
Definition shown_as (e o : MetricsRow) : Prop :=
  Forall (λ col, rounded_to_2_places (col e) (col o)) numeric_cols ∧
  o_key o = o_key e ∧
  o_campaign_name o = o_campaign_name e ∧
  profit_loss o = profit_loss e.

(** The header cell of a column, as lines 104-111 leave it. *)
Definition header_cell (h : string) : Cell :=
  {| value := VString h; fill := Some header_fill; font := Some header_font;
     alignment := Some {| horizontal := "center"; vertical := "center" |} |}.

(** The cell of the finished sheet at a row and a column, read off the
    report: the headers in row 1, report row [i] in row [i + 2], the
    profit_loss column colour-coded. *)
Definition sheet_cell (report : list MetricsRow) (r c : nat) : option Cell :=
  match r, c with
  | 1%nat, S j => header_cell ∘ upper <$> columns !! j
  | S (S i), S j =>
      match report !! i with
      | Some o =>
          (λ v, if decide (j = 13%nat) then color_code (new_cell v)
                else new_cell v) <$> row_values o !! j
      | None => None
      end
  | _, _ => None
  end.

(** The three fills of lines 121-126. *)
Definition label_fill (label : string) : option PatternFill :=
  if String.eqb label "Profit" then Some (solid "DFFFD6")
  else if String.eqb label "Loss" then Some (solid "FFD6D6")
  else if String.eqb label "Break-Even" then Some (solid "FFFFE0")
  else None.

(** ** Example inputs *)

Definition end_to_end_revenue : list RevenueRecord :=
  [revenue_row 12345 10 500 10; revenue_row 12345 11 800 25].

Definition end_to_end_spend : list SpendRecord :=
  [spend_row "Set (12345)" "10:00" 50 5;
   spend_row "Set (12345)" "11:00" 80 8].

Definition end_to_end_spend_data : list SpendData :=
  [ {| sd_record := spend_row "Set (12345)" "10:00" 50 5;
       sd_campid := Some 12345; sd_hour := 10 |};
    {| sd_record := spend_row "Set (12345)" "11:00" 80 8;
       sd_campid := Some 12345; sd_hour := 11 |} ].

Definition end_to_end_report : list MetricsRow :=
  [ {| o_campid := 12345; o_campaign_name := Some "Set (12345)";
       o_hour := 10; o_hourly_spend := 50; o_hourly_results := 5;
       o_estimated_earnings := 500; o_total_clicks := 10;
       hourly_revenue := 500; hourly_clicks := 10;
       hourly_cpr := 10; hourly_rpc := 50;
       profit := 450; roi := 900; profit_loss := "Profit" |};
    {| o_campid := 12345; o_campaign_name := Some "Set (12345)";
       o_hour := 11; o_hourly_spend := 80; o_hourly_results := 8;
       o_estimated_earnings := 800; o_total_clicks := 25;
       hourly_revenue := 300; hourly_clicks := 15;
       hourly_cpr := 10; hourly_rpc := 20;
       profit := 220; roi := 275; profit_loss := "Profit" |} ]%Q.

(** Two ad sets of campaign 1, both reporting at 10 o'clock. *)
Definition shared_id_revenue : list RevenueRecord :=
  [revenue_row 1 10 500 10].

Definition shared_id_spend : list SpendRecord :=
  [spend_row "A (1)" "10:00" 50 5; spend_row "B (1)" "10:00" 80 8].

(** Two ad sets of campaign 1, over two hours. *)
Definition two_hours_revenue : list RevenueRecord :=
  [revenue_row 1 10 500 10; revenue_row 1 11 800 25].

Definition two_hours_spend : list SpendRecord :=
  [spend_row "A (1)" "10:00" 50 5; spend_row "B (1)" "11:00" 80 8].

(** The report of the script on them: four rows, each hour once with
    the name "A (1)" and once with the name "B (1)". *)
Definition two_hours_report : list MetricsRow :=
  Eval vm_compute in
    match metrics_pipeline two_hours_revenue two_hours_spend with
    | OK out => out
    | Raise _ => []
    end.

(** Two revenue rows and two spend rows of campaign 1 within hour 10. *)
Definition summed_revenue : list RevenueRecord :=
  [revenue_row 1 10 100 4; revenue_row 1 10 50 2].

Definition summed_spend : list SpendRecord :=
  [spend_row "A (1)" "10:00" 20 1; spend_row "A (1)" "10:30" 30 2].

Definition summed_spend_data : list SpendData :=
  [ {| sd_record := spend_row "A (1)" "10:00" 20 1;
       sd_campid := Some 1; sd_hour := 10 |};
    {| sd_record := spend_row "A (1)" "10:30" 30 2;
       sd_campid := Some 1; sd_hour := 10 |} ].

(** The report on them: one row, earnings 150, clicks 6, spend 50 and
    results 3. *)
Definition summed_report : list MetricsRow :=
  [ {| o_campid := 1; o_campaign_name := Some "A (1)"; o_hour := 10;
       o_hourly_spend := 50; o_hourly_results := 3;
       o_estimated_earnings := 150; o_total_clicks := 6;
       hourly_revenue := 150; hourly_clicks := 6;
       hourly_cpr := 1667 # 100; hourly_rpc := 25;
       profit := 100; roi := 200; profit_loss := "Profit" |} ]%Q.

(** A time label without an hour, and a name without an id. *)
Definition no_hour_spend : list SpendRecord :=
  [spend_row "Set (12345)" "10:00" 50 5;
   spend_row "Set (12345)" "noon" 80 8].

Definition no_id_spend : list SpendRecord :=
  [spend_row "Set (12345)" "10:00" 50 5; spend_row "Set B" "11:00" 80 8].

(** A profit of 0.004. *)
Definition small_profit_revenue : list RevenueRecord :=
  [revenue_row 1 10 50.004 1].

Definition small_profit_spend : list SpendRecord :=
  [spend_row "A (1)" "10:00" 50 1].

Definition small_profit_spend_data : list SpendData :=
  [ {| sd_record := spend_row "A (1)" "10:00" 50 1;
       sd_campid := Some 1; sd_hour := 10 |} ].

(** The report on it: earnings 50.004 shown as 50, a roi of 0.008 shown
    as 0.01, the profit of 0.004 shown as 0 beside the label 'Profit'. *)
Definition small_profit_report : list MetricsRow :=
  [ {| o_campid := 1; o_campaign_name := Some "A (1)"; o_hour := 10;
       o_hourly_spend := 50; o_hourly_results := 1;
       o_estimated_earnings := 50; o_total_clicks := 1;
       hourly_revenue := 50; hourly_clicks := 1;
       hourly_cpr := 50; hourly_rpc := 50;
       profit := 0; roi := 1 # 100; profit_loss := "Profit" |} ]%Q.

(** Campaign 1 with 3 clicks and a spend of 0.004; campaign 2 without
    clicks, results or spend. *)
Definition guard_revenue : list RevenueRecord :=
  [revenue_row 1 10 1 3; revenue_row 2 10 5 0].

Definition guard_spend : list SpendRecord :=
  [spend_row "A (1)" "10:00" 0.004 1; spend_row "B (2)" "10:00" 0 0].

(** The report on them: campaign 1 shows an hourly_rpc of 0.33 beside
    1 and 3, and a roi of 24900 beside an hourly_spend of 0. *)
Definition guard_report : list MetricsRow :=
  [ {| o_campid := 1; o_campaign_name := Some "A (1)"; o_hour := 10;
       o_hourly_spend := 0; o_hourly_results := 1;
       o_estimated_earnings := 1; o_total_clicks := 3;
       hourly_revenue := 1; hourly_clicks := 3;
       hourly_cpr := 0; hourly_rpc := 33 # 100;
       profit := 1; roi := 24900; profit_loss := "Profit" |};
    {| o_campid := 2; o_campaign_name := Some "B (2)"; o_hour := 10;
       o_hourly_spend := 0; o_hourly_results := 0;
       o_estimated_earnings := 5; o_total_clicks := 0;
       hourly_revenue := 5; hourly_clicks := 0;
       hourly_cpr := 0; hourly_rpc := 0;
       profit := 5; roi := 0; profit_loss := "Profit" |} ]%Q.

Definition cumulative_revenue : list RevenueRecord :=
  [revenue_row 7 1 100 4; revenue_row 7 2 150 6; revenue_row 7 3 200 9].

Definition cumulative_spend : list SpendRecord :=
  [spend_row "C (7)" "1:00" 10 1; spend_row "C (7)" "2:00" 10 1;
   spend_row "C (7)" "3:00" 10 1].

(** A row without its amount. *)
Definition missing_amount_row : SpendRecord :=
  {| ad_set_name := "Set (12345)"; time_of_day := "11:00";
     amount_spent := None; results := Some 8%Q |}.

Definition missing_amount_spend_data : list SpendData :=
  [ {| sd_record := spend_row "Set (12345)" "10:00" 50 5;
       sd_campid := Some 12345; sd_hour := 10 |};
    {| sd_record := missing_amount_row;
       sd_campid := Some 12345; sd_hour := 11 |} ].

(** ** Tactics *)

(** Closes a conjunction of equations between closed terms by running
    the definitions, one equation after the other. *)
Ltac evaluate :=
  lazymatch goal with
  | |- _ ∧ _ => split; [vm_compute; reflexivity|evaluate]
  | _ => vm_compute; reflexivity
  end.

(** ** The Python primitives on examples *)

Example search_paren_digits_leftmost :
  search_paren_digits "Set (a) ((77) (8)" = Some "77"%string ∧
  search_paren_digits "Set B" = None ∧
  search_paren_digits "Set ()" = None.
Proof. evaluate. Qed.

Example search_digits_colon_leftmost :
  search_digits_colon "a1 23:59" = Some "23"%string ∧
  search_digits_colon "10:00:00 - 10:59:59" = Some "10"%string ∧
  search_digits_colon "noon" = None ∧
  search_digits_colon ":30" = None.
Proof. evaluate. Qed.

Example float64_of_int_rounds :
  float64_of_int 12345 = 12345 ∧
  float64_of_int (2 ^ 53 + 1) = 2 ^ 53 ∧
  float64_of_int (2 ^ 53 + 3) = 2 ^ 53 + 4.
Proof. evaluate. Qed.

Example round2_ties_to_even :
  round2 0.125 = Qred 0.12 ∧ round2 0.135 = Qred 0.14 ∧
  round2 0.004 = 0%Q ∧ round2 (-0.125) = Qred (-0.12).
Proof. evaluate. Qed.

(** ** The exception monad *)

Section Traverse.
Context {A B : Type} (f : A → result B).

Lemma traverse_OK l ys :
  traverse f l = OK ys → Forall2 (λ x y, f x = OK y) l ys.
Proof.
  revert ys. induction l as [|x l IH]; intros ys; simpl.
  - intros [= <-]. constructor.
  - destruct (f x) as [y|e] eqn:Hx; simpl; [|discriminate].
    destruct (traverse f l) as [zs|e]; simpl; [|discriminate].
    intros [= <-]. constructor; auto.
Qed.

Lemma traverse_total l :
  Forall (λ x, ∃ y, f x = OK y) l → ∃ ys, traverse f l = OK ys.
Proof.
  induction 1 as [|x l [y Hy] _ [ys IH]]; simpl.
  - by eexists.
  - rewrite Hy, IH. by eexists.
Qed.

Lemma traverse_Raise l x e :
  x ∈ l → f x = Raise e → ∃ e', traverse f l = Raise e'.
Proof.
  intros Hin Hx. induction Hin as [x l|x z l _ IH]; simpl.
  - rewrite Hx. by eexists.
  - destruct (f z); simpl; [|by eexists].
    destruct (IH Hx) as [e' ->]. by eexists.
Qed.
End Traverse.

Lemma traverse_app {A B} (f : A → result B) l1 l2 :
  traverse f (l1 ++ l2)
  = (ys1 ← traverse f l1; ys2 ← traverse f l2; OK (ys1 ++ ys2)).
Proof.
  induction l1 as [|x l1 IH]; simpl.
  - by destruct (traverse f l2).
  - rewrite IH. destruct (f x); simpl; [|done].
    destruct (traverse f l1); simpl; [|done].
    by destruct (traverse f l2).
Qed.

Lemma traverse_Raise_inv {A B} (f : A → result B) l e :
  traverse f l = Raise e → ∃ x, x ∈ l ∧ f x = Raise e.
Proof.
  induction l as [|x l IH]; simpl; [done|].
  destruct (f x) as [y|e'] eqn:Hx; simpl.
  - destruct (traverse f l) as [ys|e'']; simpl; [done|].
    intros [= ->]. destruct IH as (z & Hz & Hfz); [done|].
    exists z. split; [by apply list_elem_of_further|done].
  - intros [= ->]. exists x. split; [apply list_elem_of_here|done].
Qed.

(** ** Comparisons and guarded division *)

Lemma gt0_spec (a : Q) : gt0 a = true ↔ (0 < a)%Q.
Proof.
  unfold gt0, Qlt. simpl. rewrite Z.ltb_lt. lia.
Qed.

Lemma lt0_spec (a : Q) : lt0 a = true ↔ (a < 0)%Q.
Proof.
  unfold lt0, Qlt. simpl. rewrite Z.ltb_lt. lia.
Qed.

Lemma div_gt0 (a b : Q) : gt0 b = true → div a b = OK (a / b)%Q.
Proof.
  intros Hb. unfold div.
  destruct (Qeq_bool b 0) eqn:E; [|done].
  apply Qeq_bool_eq in E. apply gt0_spec in Hb.
  rewrite E in Hb. by apply Qlt_irrefl in Hb.
Qed.

Lemma classify_spec (x : Q) :
  ((0 < x)%Q → classify x = "Profit") ∧
  ((x < 0)%Q → classify x = "Loss") ∧
  ((x == 0)%Q → classify x = "Break-Even").
Proof.
  unfold classify. repeat split; intros H.
  - apply gt0_spec in H. by rewrite H.
  - destruct (gt0 x) eqn:E.
    + apply gt0_spec in E. exfalso. eapply Qlt_irrefl, Qlt_trans; eauto.
    + apply lt0_spec in H. by rewrite H.
  - destruct (gt0 x) eqn:E1.
    { apply gt0_spec in E1. rewrite H in E1. by apply Qlt_irrefl in E1. }
    destruct (lt0 x) eqn:E2; [|done].
    apply lt0_spec in E2. rewrite H in E2. by apply Qlt_irrefl in E2.
Qed.

(** ** The derived metrics (lines 66-82) *)

Lemma guarded_div_OK (a b : Q) :
  (if gt0 b then div a b else OK 0%Q)
  = OK (if gt0 b then a / b else 0)%Q.
Proof. destruct (gt0 b) eqn:E; [by apply div_gt0|done]. Qed.

Lemma guarded_roi_OK (p s : Q) :
  (if gt0 s then q ← div p s; OK (q * 100)%Q else OK 0%Q)
  = OK (if gt0 s then p / s * 100 else 0)%Q.
Proof. destruct (gt0 s) eqn:E; [|done]. by rewrite (div_gt0 _ _ E). Qed.

Lemma guard_spec (b a : Q) :
  ((0 < b)%Q → (if gt0 b then a else 0%Q) = a) ∧
  (¬ (0 < b)%Q → (if gt0 b then a else 0%Q) = 0%Q).
Proof.
  split; intros H.
  - apply gt0_spec in H. by rewrite H.
  - destruct (gt0 b) eqn:E; [|done]. by apply gt0_spec in E.
Qed.

Lemma derive_row_OK (r : NamedRow) (revenue clicks : Q) :
  ∃ o, derive_row r revenue clicks = OK o ∧
       o_key o = m_key (nr_row r) ∧
       o_campaign_name o = campaign_name r ∧
       hourly_revenue o = revenue ∧ hourly_clicks o = clicks ∧
       o_estimated_earnings o = estimated_earnings (nr_row r) ∧
       o_total_clicks o = total_clicks (nr_row r) ∧
       metric_equations o.
Proof.
  unfold derive_row. rewrite !guarded_div_OK. simpl.
  rewrite guarded_roi_OK. simpl. eexists. split; [done|].
  unfold metric_equations; simpl. repeat split; try done; apply guard_spec.
Qed.

Lemma derive_total (rows : list NamedRow) :
  ∃ exact, derive rows = OK exact.
Proof.
  apply traverse_total, Forall_forall. intros [[r x] y] _.
  destruct (derive_row_OK r x y) as (o & Ho & _). by exists o.
Qed.

Lemma fillna_length s v : length s = length v → length (fillna s v) = length v.
Proof. intros H. unfold fillna. rewrite length_zip_with. lia. Qed.

Lemma group_diff_length {A} (grp : A → Z) col seen rows :
  length (group_diff grp col seen rows) = length rows.
Proof. revert seen. induction rows; intros; simpl; auto. Qed.

Lemma derive_rows (rows : list NamedRow) exact :
  derive rows = OK exact →
  Forall2 (λ r o, o_key o = m_key (nr_row r) ∧
                  o_campaign_name o = campaign_name r ∧
                  o_estimated_earnings o = estimated_earnings (nr_row r) ∧
                  o_total_clicks o = total_clicks (nr_row r) ∧
                  metric_equations o) rows exact ∧
  hourly_revenue <$> exact = hourly_revenue_col rows ∧
  hourly_clicks <$> exact = hourly_clicks_col rows.
Proof.
  intros H. apply traverse_OK in H.
  assert (Hl1 : length (hourly_revenue_col rows) = length rows).
  { unfold hourly_revenue_col. rewrite fillna_length;
      rewrite ?length_fmap, ?group_diff_length; done. }
  assert (Hl2 : length (hourly_clicks_col rows) = length rows).
  { unfold hourly_clicks_col. rewrite fillna_length;
      rewrite ?length_fmap, ?group_diff_length; done. }
  revert H Hl1 Hl2.
  generalize (hourly_revenue_col rows) (hourly_clicks_col rows).
  intros xs ys. revert xs ys exact.
  induction rows as [|r rows IH]; intros [|x xs] [|y ys] exact H; try done.
  - inversion H; subst. done.
  - simpl in H. inversion H as [|? o ? exact' Ho Hrest]; subst.
    intros [= Hl1] [= Hl2].
    destruct (IH xs ys exact' Hrest Hl1 Hl2) as (IH1 & IH2 & IH3).
    destruct (derive_row_OK r x y)
      as (o' & Ho' & Hk & Hn & Hr & Hc & He & Ht & Hm).
    simpl in Ho. rewrite Ho' in Ho. injection Ho as <-.
    split; [constructor; auto|].
    by rewrite !fmap_cons, Hr, Hc, IH2, IH3.
Qed.

(** ** Differencing by campaign (lines 62-63) *)

Lemma group_diff_lookup {A} (grp : A → Z) (col : A → Q) seen pre r post :
  group_diff grp col seen (pre ++ r :: post) !! length pre
  = Some ((λ p, col r - col p)%Q
            <$> last (filter (λ p, grp p = grp r) (reverse seen ++ pre))).
Proof.
  revert seen. induction pre as [|a pre IH]; intros seen; simpl.
  - by rewrite app_nil_r, filter_reverse, last_reverse.
  - rewrite IH, reverse_cons, <- app_assoc. done.
Qed.

Lemma diff_fillna_lookup (col : NamedRow → Q) pre r post :
  fillna (group_diff (campid ∘ nr_row) col [] (pre ++ r :: post))
         (col <$> pre ++ r :: post) !! length pre
  = Some (match previous_row pre r with
          | Some p => col r - col p
          | None => col r
          end)%Q.
Proof.
  unfold fillna. rewrite lookup_zip_with, group_diff_lookup. simpl.
  rewrite list_lookup_fmap, list_lookup_middle by done. simpl.
  unfold previous_row. by destruct (last _).
Qed.

(** ** Group keys (lines 37 and 43) *)

#[local] Instance key_le_trans : Transitive key_le.
Proof. intros [a1 a2] [b1 b2] [c1 c2]; unfold key_le; simpl; lia. Qed.

#[local] Instance key_le_total : Total key_le.
Proof. intros [a1 a2] [b1 b2]; unfold key_le; simpl; lia. Qed.

Lemma key_le_lt (a b : key) : key_le a b → a ≠ b → key_lt a b.
Proof.
  destruct a as [a1 a2], b as [b1 b2]. unfold key_le, key_lt; simpl.
  intros H Hne. destruct (decide (a2 = b2)) as [->|]; [|lia].
  destruct H as [|[-> _]]; [lia|done].
Qed.

Lemma StronglySorted_filter {A} (R : relation A) (P : A → Prop)
    `{∀ x, Decision (P x)} l :
  StronglySorted R l → StronglySorted R (filter P l).
Proof.
  induction 1 as [|x l Hl IH Hx]; [constructor|].
  rewrite filter_cons. destruct (decide (P x)); [|done].
  constructor; [done|]. apply Forall_forall. intros y Hy.
  apply list_elem_of_filter in Hy as [_ Hy]. by eapply Forall_forall in Hx.
Qed.

Lemma StronglySorted_strict (l : list key) :
  StronglySorted key_le l → NoDup l → StronglySorted key_lt l.
Proof.
  induction 1 as [|x l Hl IH Hx]; intros Hnd; [constructor|].
  apply NoDup_cons in Hnd as [Hx' Hnd]. constructor; [auto|].
  apply Forall_forall. intros y Hy. apply key_le_lt.
  - by eapply Forall_forall in Hx.
  - intros ->. done.
Qed.

Lemma elem_of_group_keys ks k : k ∈ group_keys ks ↔ k ∈ ks.
Proof.
  unfold group_keys. by rewrite merge_sort_Permutation, elem_of_remove_dups.
Qed.

Lemma NoDup_group_keys ks : NoDup (group_keys ks).
Proof.
  unfold group_keys. rewrite merge_sort_Permutation. apply NoDup_remove_dups.
Qed.

Lemma group_keys_sorted ks : StronglySorted key_lt (group_keys ks).
Proof.
  apply StronglySorted_strict; [|apply NoDup_group_keys].
  apply StronglySorted_merge_sort; apply _.
Qed.

Lemma aggregate_revenue_keys rows :
  ar_key <$> aggregate_revenue rows = group_keys (rv_key <$> rows).
Proof.
  unfold aggregate_revenue. rewrite <- list_fmap_compose.
  rewrite <- (list_fmap_id (group_keys _)) at 2.
  apply list_fmap_ext. by intros _ [c h] _.
Qed.

Lemma aggregate_spend_keys rows :
  cs_key <$> aggregate_spend rows = group_keys (cs_key <$> rows).
Proof.
  unfold aggregate_spend. rewrite <- list_fmap_compose.
  rewrite <- (list_fmap_id (group_keys _)) at 2.
  apply list_fmap_ext. by intros _ [c h] _.
Qed.

(** ** unique / drop_duplicates *)

Lemma elem_of_unique_from {A} `{EqDecision A} (seen l : list A) x :
  x ∈ unique_from seen l ↔ x ∈ l ∧ x ∉ seen.
Proof.
  revert seen. induction l as [|y l IH]; intros seen; simpl.
  - rewrite elem_of_nil. tauto.
  - destruct (decide (y ∈ seen)) as [Hy|Hy].
    + rewrite IH, elem_of_cons. split; [tauto|].
      intros [[->|?] ?]; tauto.
    + rewrite !elem_of_cons, IH, elem_of_cons.
      destruct (decide (x = y)) as [->|]; tauto.
Qed.

Lemma elem_of_drop_duplicates {A} `{EqDecision A} (l : list A) x :
  x ∈ drop_duplicates l ↔ x ∈ l.
Proof.
  unfold drop_duplicates. rewrite elem_of_unique_from, elem_of_nil. tauto.
Qed.

(** ** The merges (lines 49-59) *)


Lemma filter_none {A} (P : A → Prop) `{∀ x, Decision (P x)} (l : list A) :
  (∀ x, x ∈ l → ¬ P x) → filter P l = [].
Proof.
  induction l as [|x l IH]; intros Hl; [done|].
  rewrite filter_cons, decide_False by (apply Hl, list_elem_of_here).
  apply IH. intros y Hy. by apply Hl, list_elem_of_further.
Qed.

Lemma filter_key_unique {A} (f : A → key) (k : key) (l : list A) :
  NoDup (f <$> l) →
((k ∉ f <$> l) ∧ filter (λ r, f r = k) l = []) ∨
  (∃ r, r ∈ l ∧ f r = k ∧ filter (λ r, f r = k) l = [r]).
Proof.
  induction l as [|x l IH]; intros Hnd;
    [left; split; [apply not_elem_of_nil|done]|].
  rewrite fmap_cons in Hnd. apply NoDup_cons in Hnd as [Hx Hnd].
  rewrite filter_cons. destruct (decide (f x = k)) as [Hk|Hk].
  - right. exists x. split; [apply list_elem_of_here|]. split; [done|]. f_equal.
    apply filter_none. intros y Hin Hy. apply Hx.
    rewrite Hk, <- Hy. by apply list_elem_of_fmap_2.
  - destruct (IH Hnd) as [[Hn ->]|(r & Hin & Hr & ->)].
    + left. split; [|done]. rewrite fmap_cons, not_elem_of_cons. by split.
    + right. exists r. split; [by apply list_elem_of_further|done].
Qed.

(** With one row per key on the right, the inner merge keeps the rows of
    the left frame whose key the right frame has, in their order. *)
Lemma merge_inner_keys left right :
  NoDup (cs_key <$> right) →
  m_key <$> merge_inner left right
  = filter (λ k, k ∈ cs_key <$> right) (ar_key <$> left).
Proof.
  intros Hnd. unfold merge_inner.
  induction left as [|l left IH]; [done|].
  rewrite bind_cons, fmap_app, IH, fmap_cons, filter_cons. clear IH.
  destruct (filter_key_unique cs_key (ar_key l) right Hnd)
    as [[Hn ->]|(r & Hin & Hr & ->)].
  - by rewrite decide_False.
  - rewrite decide_True; [done|].
    rewrite <- Hr. by apply list_elem_of_fmap_2.
Qed.

Lemma elem_of_merge_left (n : NamedRow) left mapping :
  n ∈ merge_left left mapping ↔
  nr_row n ∈ left ∧
  match campaign_name n with
  | Some s => (Some (campid (nr_row n)), s) ∈ mapping
  | None => ∀ s, (Some (campid (nr_row n)), s) ∉ mapping
  end.
Proof.
  unfold merge_left. rewrite list_elem_of_bind. split.
  - intros (m & Hn & Hm).
    destruct (filter _ mapping) as [|p ps] eqn:E.
    + apply list_elem_of_singleton in Hn as ->. simpl. split; [done|].
      intros s. by apply (filter_nil_not_elem_of _ _ _ E).
    + apply list_elem_of_fmap in Hn as ([c s] & -> & Hp). simpl.
      split; [done|]. rewrite <- E in Hp.
      apply list_elem_of_filter in Hp as [Hc Hp]. simpl in Hc. by subst c.
  - destruct n as [m name]. intros [Hm Hname]. simpl in Hm, Hname. exists m.
    split; [|done].
    destruct (filter _ mapping) as [|p ps] eqn:E.
    + destruct name as [s|]; [|apply list_elem_of_here].
      exfalso. by apply (filter_nil_not_elem_of _ _ _ E) in Hname.
    + rewrite <- E. destruct name as [s|].
      * apply list_elem_of_fmap. exists (Some (campid m), s).
        split; [done|]. by apply list_elem_of_filter.
      * exfalso. assert (p ∈ filter (λ p, p.1 = Some (campid m)) mapping)
          as Hp by (rewrite E; apply list_elem_of_here).
        apply list_elem_of_filter in Hp as [Hc Hp].
        destruct p as [c s]. simpl in Hc. subst c. by apply Hname in Hp.
Qed.

Lemma merge_left_keys left mapping k :
  k ∈ (m_key ∘ nr_row) <$> merge_left left mapping ↔ k ∈ m_key <$> left.
Proof.
  rewrite !list_elem_of_fmap. split.
  - intros (n & -> & Hn). apply elem_of_merge_left in Hn as [Hn _].
    by exists (nr_row n).
  - intros (m & -> & Hm).
    destruct (filter (λ p, p.1 = Some (campid m)) mapping) as [|p ps] eqn:E.
    + exists {| nr_row := m; campaign_name := None |}. split; [done|].
      apply elem_of_merge_left. split; [done|]. simpl.
      intros s. by apply (filter_nil_not_elem_of _ _ _ E).
    + exists {| nr_row := m; campaign_name := Some p.2 |}. split; [done|].
      apply elem_of_merge_left. split; [done|]. simpl.
      assert (p ∈ filter (λ p, p.1 = Some (campid m)) mapping)
        as Hp by (rewrite E; apply list_elem_of_here).
      apply list_elem_of_filter in Hp as [Hc Hp].
      destruct p as [c s]. simpl in *. by subst c.
Qed.

(** ** The pipeline as a whole *)

Lemma round_row_key r : o_key (round_row r) = o_key r.
Proof. done. Qed.


Lemma derive_keys rows exact :
  derive rows = OK exact → o_key <$> exact = (m_key ∘ nr_row) <$> rows.
Proof.
  intros H. apply derive_rows in H as [H _].
  induction H as [|r o rows exact (Hk & _) _ IH]; [done|].
  by rewrite !fmap_cons, IH, Hk.
Qed.


(** The merged frame of line 54 is in ascending order of (campid, hour),
    one row per key. *)
Lemma merged_data_sorted revenue_data sd :
  StronglySorted key_lt (m_key <$> merged_data revenue_data sd).
Proof.
  unfold merged_data. rewrite merge_inner_keys.
  - apply StronglySorted_filter. rewrite aggregate_revenue_keys.
    apply group_keys_sorted.
  - rewrite aggregate_spend_keys. apply NoDup_group_keys.
Qed.

Lemma merged_data_NoDup revenue_data sd :
  NoDup (m_key <$> merged_data revenue_data sd).
Proof.
  unfold merged_data. rewrite merge_inner_keys.
  - apply NoDup_filter. rewrite aggregate_revenue_keys.
    apply NoDup_group_keys.
  - rewrite aggregate_spend_keys. apply NoDup_group_keys.
Qed.

(** ** Spend cleaning (lines 24-30) *)

Lemma spend_data_rows spend sd :
  spend_data spend = OK sd →
  Forall2 (λ r d, sd_record d = r ∧
                  sd_campid d = campid_of_name (ad_set_name r) ∧
                  hour_of_label (time_of_day r) = OK (sd_hour d)) spend sd.
Proof.
  intros H. apply traverse_OK in H.
  eapply Forall2_impl; [exact H|]. intros r d. unfold add_campid_hour.
  destruct (hour_of_label _) as [h|]; simpl; [|done]. by intros [= <-].
Qed.

(** The hours are read when, and only when, every label holds one. *)
Lemma spend_data_OK_iff spend :
  (∃ sd, spend_data spend = OK sd) ↔
  Forall (λ r, ∃ h, hour_of_label (time_of_day r) = OK h) spend.
Proof.
  split.
  - intros [sd H]. apply spend_data_rows in H.
    induction H as [|r d spend sd (_ & _ & Hh) _ IH]; constructor; eauto.
  - intros H. apply traverse_total. eapply Forall_impl; [exact H|].
    intros r [h Hh]. unfold add_campid_hour. rewrite Hh. by eexists.
Qed.

(** A label without an hour stops the cleaning with an exception. *)
Lemma spend_data_Raise spend r :
  r ∈ spend → search_digits_colon (time_of_day r) = None →
  ∃ e, spend_data spend = Raise e.
Proof.
  intros Hr Hh. eapply traverse_Raise; [exact Hr|].
  unfold add_campid_hour, hour_of_label. by rewrite Hh.
Qed.

Lemma dropna_Some d c :
  dropna d = Some c ↔
  sd_campid d = Some (cs_campid c) ∧ cs_hour c = sd_hour d ∧
  amount_spent (sd_record d) = Some (hourly_spend c) ∧
  results (sd_record d) = Some (hourly_results c).
Proof.
  unfold dropna. destruct c as [c h a n]. simpl.
  destruct (sd_campid d) as [c'|], (amount_spent _) as [a'|],
    (results _) as [n'|]; simpl; split;
    first [ by intros [= <- <- <- <-]
          | by intros ([= <-] & <- & [= <-] & [= <-])
          | by intros (? & ? & ? & ?)
          | done ].
Qed.

Lemma dropna_None d :
  dropna d = None ↔
  sd_campid d = None ∨ amount_spent (sd_record d) = None ∨
  results (sd_record d) = None.
Proof.
  unfold dropna.
  destruct (sd_campid d), (amount_spent _), (results _); simpl;
    split; intros H; first [done | tauto | by destruct H as [|[|]]].
Qed.

Lemma metrics_pipeline_inv revenue_data spend out :
  metrics_pipeline revenue_data spend = OK out →
  ∃ sd exact, spend_data spend = OK sd ∧
              derive (named_data revenue_data sd) = OK exact ∧
              out = round_row <$> exact.
Proof.
  unfold metrics_pipeline.
  destruct (spend_data spend) as [sd|]; simpl; [|done].
  destruct (derive _) as [exact|] eqn:E; simpl; [|done].
  intros [= <-]. by exists sd, exact.
Qed.

Lemma derive_equations rows exact :
  derive rows = OK exact → Forall metric_equations exact.
Proof.
  intros H. apply derive_rows in H as [H _].
  induction H as [|r o rows exact (_ & _ & _ & _ & Hm) _ IH];
    constructor; done.
Qed.

Lemma revenue_filtered_keys revenue_data matching k :
  k ∈ rv_key <$> revenue_filtered revenue_data matching ↔
  k ∈ rv_key <$> revenue_data ∧ k.1 ∈ matching.
Proof.
  unfold revenue_filtered. rewrite !list_elem_of_fmap. split.
  - intros (r & -> & Hr). apply list_elem_of_filter in Hr as [Hm Hr].
    split; [by exists r|done].
  - intros [(r & -> & Hr) Hm]. exists r. split; [done|].
    by apply list_elem_of_filter.
Qed.

Lemma matching_campaigns_key cleaned k :
  k ∈ cs_key <$> cleaned → k.1 ∈ matching_campaigns cleaned.
Proof.
  intros (r & -> & Hr)%list_elem_of_fmap. unfold matching_campaigns.
  apply elem_of_drop_duplicates. by apply (list_elem_of_fmap_2 cs_campid).
Qed.


Lemma spend_cleaned_app sd1 sd2 :
  spend_cleaned (sd1 ++ sd2) = spend_cleaned sd1 ++ spend_cleaned sd2.
Proof. unfold spend_cleaned. by rewrite omap_app, fmap_app. Qed.

Lemma elem_of_spend_cleaned sd c :
  c ∈ spend_cleaned sd ↔
  ∃ d x, d ∈ sd ∧ sd_campid d = Some x ∧
         cs_campid c = int64_of_float x ∧ cs_hour c = sd_hour d ∧
         amount_spent (sd_record d) = Some (hourly_spend c) ∧
         results (sd_record d) = Some (hourly_results c).
Proof.
  unfold spend_cleaned. rewrite list_elem_of_fmap. split.
  - intros (c' & -> & Hc). apply list_elem_of_omap in Hc as (d & Hd & Hc).
    apply dropna_Some in Hc as (H1 & H2 & H3 & H4).
    by exists d, (cs_campid c').
  - intros (d & x & Hd & H1 & H2 & H3 & H4 & H5).
    exists {| cs_campid := x; cs_hour := cs_hour c;
              hourly_spend := hourly_spend c;
              hourly_results := hourly_results c |}.
    split; [destruct c; simpl in *; by subst|].
    apply list_elem_of_omap. exists d. split; [done|].
    by apply dropna_Some.
Qed.

(** ** The campaign names of the report *)

Lemma elem_of_campaign_name_mapping spend sd (c : option Z) (s : string) :
  spend_data spend = OK sd →
  (c, s) ∈ campaign_name_mapping sd ↔
  ∃ r, r ∈ spend ∧ ad_set_name r = s ∧ campid_of_name s = c.
Proof.
  intros Hsd. apply spend_data_rows in Hsd.
  unfold campaign_name_mapping.
  rewrite elem_of_drop_duplicates, list_elem_of_fmap. split.
  - intros (d & [= -> ->] & Hd).
    apply list_elem_of_lookup in Hd as [i Hi].
    destruct (Forall2_lookup_r _ _ _ _ _ Hsd Hi) as (r & Hr & <- & Hc & _).
    exists (sd_record d). split; [by eapply list_elem_of_lookup_2|done].
  - intros (r & Hr & <- & <-).
    apply list_elem_of_lookup in Hr as [i Hi].
    destruct (Forall2_lookup_l _ _ _ _ _ Hsd Hi) as (d & Hd & <- & Hc & _).
    exists d. split; [by rewrite Hc|by eapply list_elem_of_lookup_2].
Qed.

(** The name of a report row is the name of a spend row that holds the id
    of the row; the report has such a row for every name that holds it. *)
Lemma report_names revenue_data spend sd exact :
  spend_data spend = OK sd →
  derive (named_data revenue_data sd) = OK exact →
  (∀ o s, o ∈ round_row <$> exact → o_campaign_name o = Some s →
          ∃ r, r ∈ spend ∧ ad_set_name r = s ∧
               campid_of_name s = Some (o_campid o)) ∧
  (∀ o r, o ∈ round_row <$> exact → r ∈ spend →
          campid_of_name (ad_set_name r) = Some (o_campid o) →
          ∃ o', o' ∈ round_row <$> exact ∧ o_key o' = o_key o ∧
                o_campaign_name o' = Some (ad_set_name r)).
Proof.
  intros Hsd He. apply derive_rows in He as [He _].
  assert (∀ o, o ∈ round_row <$> exact →
            ∃ n, n ∈ named_data revenue_data sd ∧
                 o_key o = m_key (nr_row n) ∧
                 o_campaign_name o = campaign_name n) as Hon.
  { intros o (e & -> & Hin)%list_elem_of_fmap.
    apply list_elem_of_lookup in Hin as [i Hi].
    destruct (Forall2_lookup_r _ _ _ _ _ He Hi) as (n & Hn & Hk & Hname & _).
    exists n. split; [by eapply list_elem_of_lookup_2|done]. }
  split.
  - intros o s Ho Hs. destruct (Hon o Ho) as (n & Hn & Hk & Hname).
    apply elem_of_merge_left in Hn as [_ Hn].
    rewrite <- Hname, Hs in Hn.
    apply (elem_of_campaign_name_mapping _ _ _ _ Hsd) in Hn
      as (r & Hr & Hrs & Hc).
    exists r. repeat split; try done.
    rewrite Hc. f_equal. by injection Hk.
  - intros o r Ho Hr Hc. destruct (Hon o Ho) as (n & Hn & Hk & _).
    apply elem_of_merge_left in Hn as [Hm _].
    assert ({| nr_row := nr_row n; campaign_name := Some (ad_set_name r) |}
            ∈ named_data revenue_data sd) as Hn'.
    { apply elem_of_merge_left. split; [done|]. simpl.
      apply (elem_of_campaign_name_mapping _ _ _ _ Hsd).
      exists r. repeat split; try done. rewrite Hc. f_equal. by injection Hk. }
    apply list_elem_of_lookup in Hn' as [i Hi].
    destruct (Forall2_lookup_l _ _ _ _ _ He Hi) as (e & Hei & Hk' & Hname & _).
    exists (round_row e). split; [|split].
    + apply list_elem_of_fmap_2. by eapply list_elem_of_lookup_2.
    + rewrite round_row_key, Hk', Hk. done.
    + simpl. by rewrite Hname.
Qed.

(** ** Reports with one name per campaign *)

Lemma NoDup_unique_from {A} `{EqDecision A} (seen l : list A) :
  NoDup (unique_from seen l).
Proof.
  revert seen. induction l as [|x l IH]; intros seen; simpl;
    [constructor|].
  destruct (decide (x ∈ seen)); [done|].
  constructor; [|done]. rewrite elem_of_unique_from.
  intros [_ Hx]. apply Hx, list_elem_of_here.
Qed.

Lemma merge_left_one_name left (mapping : list (option Z * string)) :
  NoDup mapping →
  (∀ c s1 s2, (Some c, s1) ∈ mapping → (Some c, s2) ∈ mapping → s1 = s2) →
  nr_row <$> merge_left left mapping = left.
Proof.
  intros Hnd Hone. unfold merge_left.
  induction left as [|m left IH]; [done|].
  rewrite bind_cons, fmap_app, IH. clear IH.
  change (m :: left) with ([m] ++ left). f_equal.
  destruct (filter _ mapping) as [|p ps] eqn:E; [done|].
  assert (NoDup (p :: ps)) as Hnd' by (rewrite <- E; by apply NoDup_filter).
  assert (∀ q, q ∈ p :: ps → q = p) as Hall.
  { intros [c' s'] Hq. rewrite <- E in Hq.
    apply list_elem_of_filter in Hq as [Hc Hq]. simpl in Hc. subst c'.
    assert (p ∈ filter (λ p, p.1 = Some (campid m)) mapping) as Hp
      by (rewrite E; apply list_elem_of_here).
    apply list_elem_of_filter in Hp as [Hc Hp].
    destruct p as [c s]. simpl in Hc. subst c.
    f_equal. by eapply Hone. }
  destruct ps as [|q ps]; [done|].
  apply NoDup_cons in Hnd' as [Hp _]. exfalso. apply Hp.
  rewrite (Hall q); [apply list_elem_of_here|].
  apply list_elem_of_further, list_elem_of_here.
Qed.

Example one_name_end_to_end : one_name_per_campaign end_to_end_spend_data.
Proof.
  intros c s1 s2 H1 H2.
  assert (campaign_name_mapping end_to_end_spend_data
          = [(Some 12345, "Set (12345)"%string)]) as E
    by (vm_compute; reflexivity).
  rewrite E in H1, H2.
  apply list_elem_of_singleton in H1, H2. congruence.
Qed.

(** With one name per campaign, the report has the keys of the merged
    frame of line 54: one row per key, in ascending order. *)
Lemma one_name_report_keys revenue_data sd exact :
  one_name_per_campaign sd →
  derive (named_data revenue_data sd) = OK exact →
  o_key <$> (round_row <$> exact) = m_key <$> merged_data revenue_data sd ∧
  NoDup (o_key <$> (round_row <$> exact)) ∧
  StronglySorted key_lt (o_key <$> (round_row <$> exact)).
Proof.
  intros Hone He.
  assert (o_key <$> (round_row <$> exact)
          = m_key <$> merged_data revenue_data sd) as ->.
  { rewrite <- list_fmap_compose. change (o_key ∘ round_row) with o_key.
    rewrite (derive_keys _ _ He), list_fmap_compose. f_equal.
    apply merge_left_one_name; [apply NoDup_unique_from|exact Hone]. }
  split; [done|]. split; [apply merged_data_NoDup|apply merged_data_sorted].
Qed.

(** In a frame in ascending key order, the row the differencing subtracts
    is the row of the same campaign at the next lower hour. *)
Lemma sorted_previous_row (pre post : list NamedRow) (r p : NamedRow) :
  StronglySorted key_lt ((m_key ∘ nr_row) <$> (pre ++ r :: post)) →
  previous_row pre r = Some p →
  campid (nr_row p) = campid (nr_row r) ∧
  hour (nr_row p) < hour (nr_row r) ∧
  ∀ q, q ∈ pre ++ r :: post →
       campid (nr_row q) = campid (nr_row r) →
       hour (nr_row q) < hour (nr_row r) →
       hour (nr_row q) ≤ hour (nr_row p).
Proof.
  intros Hs Hp. unfold previous_row in Hp.
  assert (campid (nr_row p) = campid (nr_row r)) as Hc.
  { apply last_Some_elem_of, list_elem_of_filter in Hp as [Hp _]. done. }
  apply last_filter_Some in Hp as (l1 & l2 & -> & Hl2).
  rewrite <- !app_assoc, <- app_comm_cons in Hs.
  rewrite !fmap_app, !fmap_cons in Hs.
  apply StronglySorted_app in Hs as (H1 & _ & Hs).
  apply StronglySorted_inv in Hs as [Hs Hp].
  rewrite fmap_app, fmap_cons in Hs, Hp.
  apply StronglySorted_app in Hs as (_ & _ & Hs).
  apply StronglySorted_inv in Hs as [_ Hr].
  rewrite Forall_app, Forall_cons in Hp. destruct Hp as (_ & Hpr & _).
  assert (∀ a b : NamedRow,
            key_lt (m_key (nr_row a)) (m_key (nr_row b)) →
            campid (nr_row a) = campid (nr_row b) →
            hour (nr_row a) < hour (nr_row b)) as Hlt.
  { intros a b [H|[_ H]] Hab; simpl in *; [lia|done]. }
  split; [done|]. split; [apply Hlt; [exact Hpr|done]|].
  intros q Hq Hqc Hqh.
  rewrite <- app_assoc, <- app_comm_cons in Hq.
  apply elem_of_app in Hq as [Hq|Hq].
  { apply Z.lt_le_incl, Hlt; [|congruence].
    apply H1; [by apply (list_elem_of_fmap_2 (m_key ∘ nr_row))|].
    apply list_elem_of_here. }
  apply elem_of_cons in Hq as [->|Hq]; [done|].
  apply elem_of_app in Hq as [Hq|Hq].
  { exfalso. eapply Forall_forall in Hl2; [|exact Hq]. done. }
  apply elem_of_cons in Hq as [->|Hq]; [lia|].
  exfalso. eapply Forall_forall in Hr;
    [|by apply (list_elem_of_fmap_2 (m_key ∘ nr_row))].
  apply Hlt in Hr; [lia|done].
Qed.

(** ** The rounding (lines 85-87) *)

Lemma rint_bounds (x : Q) :
  (x - (1 # 2) <= inject_Z (rint x) <= x + (1 # 2))%Q.
Proof.
  destruct x as [n d]. unfold rint. simpl.
  pose proof (Z.div_mod n (Z.pos d) ltac:(lia)) as Hn.
  pose proof (Z.mod_pos_bound n (Z.pos d) ltac:(lia)) as Hr.
  set (f := n / Z.pos d) in *. set (r := n mod Z.pos d) in *.
  set (D := Z.pos d) in *.
  assert (∀ z : Z, ((n # d) - (1 # 2) <= inject_Z z <= (n # d) + (1 # 2))%Q
            ↔ 2 * n - D ≤ 2 * D * z ≤ 2 * n + D) as Hz.
  { intros z. unfold Qle, Qminus, Qplus, Qopp, inject_Z. simpl.
    rewrite !Pos2Z.inj_mul. fold D. lia. }
  clearbody f r D.
  destruct (2 * r ?= D) eqn:E.
  - rewrite Z.compare_eq_iff in E. destruct (Z.even f); apply Hz; nia.
  - rewrite Z.compare_lt_iff in E. apply Hz; nia.
  - rewrite Z.compare_gt_iff in E. apply Hz; nia.
Qed.

Lemma inject_Z_half (z : Z) :
  (- (1 # 2) <= inject_Z z)%Q → 0 ≤ z.
Proof. unfold Qle, inject_Z. simpl. lia. Qed.

Lemma inject_Z_half' (z : Z) :
  (inject_Z z <= 1 # 2)%Q → z ≤ 0.
Proof. unfold Qle, inject_Z. simpl. lia. Qed.

Lemma round2_Qeq (x : Q) :
  (round2 x == inject_Z (rint (x * 100)) / 100)%Q.
Proof. unfold round2. apply Qred_correct. Qed.

Lemma round2_nonneg (x : Q) : (0 <= x)%Q → (0 <= round2 x)%Q.
Proof.
  intros Hx. rewrite round2_Qeq.
  pose proof (rint_bounds (x * 100)) as [H1 _].
  assert (0 ≤ rint (x * 100)) as HR by (apply inject_Z_half; lra).
  apply Qle_shift_div_l; [reflexivity|].
  rewrite Qmult_0_l. change 0%Q with (inject_Z 0). by rewrite <- Zle_Qle.
Qed.

Lemma round2_nonpos (x : Q) : (x <= 0)%Q → (round2 x <= 0)%Q.
Proof.
  intros Hx. rewrite round2_Qeq.
  pose proof (rint_bounds (x * 100)) as [_ H2].
  assert (rint (x * 100) ≤ 0) as HR by (apply inject_Z_half'; lra).
  apply Qle_shift_div_r; [reflexivity|].
  rewrite Qmult_0_l. change 0%Q with (inject_Z 0). by rewrite <- Zle_Qle.
Qed.

Lemma round2_zero (x : Q) : (x == 0)%Q → round2 x = 0%Q.
Proof.
  intros Hx.
  assert (rint (x * 100) = 0) as HR.
  { pose proof (rint_bounds (x * 100)) as [H1 H2].
    apply Z.le_antisymm; [apply inject_Z_half'|apply inject_Z_half]; lra. }
  unfold round2. by rewrite HR.
Qed.

(** A value that is already rounded is not changed by rounding. *)
Lemma float_error_nonneg (x : Q) : (0 <= float_error x)%Q.
Proof.
  unfold float_error. apply Qle_shift_div_l; [reflexivity|].
  rewrite Qmult_0_l. apply Qabs_nonneg.
Qed.

Lemma round2_rounded_to_2_places (x : Q) :
  rounded_to_2_places x (round2 x).
Proof.
  exists (rint (x * 100)). split; [reflexivity|].
  pose proof (rint_bounds (x * 100)) as [H1 H2].
  pose proof (float_error_nonneg x) as H0.
  set (t := float_error x) in *. clearbody t. split; lra.
Qed.

Lemma round_row_shown_as (e : MetricsRow) : shown_as e (round_row e).
Proof.
  split; [|done]. unfold numeric_cols.
  repeat constructor; simpl; apply round2_rounded_to_2_places.
Qed.

Lemma round_rows_shown_as (exact : list MetricsRow) :
  Forall2 shown_as exact (round_row <$> exact).
Proof.
  induction exact as [|e exact IH]; [constructor|].
  rewrite fmap_cons. constructor; [apply round_row_shown_as|done].
Qed.

(** ** The claims *)

(** C1, on the code: two ad sets named "A (1)" and "B (1)" give the
    report two rows for campaign 1 at hour 10.  The merged frame of line 54
    has one row per key ([merged_data_NoDup]); the name merge of line 59
    repeats it once per name. *)
Theorem shared_id_repeats_key :
  ∃ out, metrics_pipeline shared_id_revenue shared_id_spend = OK out ∧
         o_key <$> out = [(1, 10); (1, 10)] ∧
         ¬ NoDup (o_key <$> out).
Proof.
  eexists. split; [evaluate|]. split; [evaluate|].
  intros H. apply NoDup_cons in H as [H _]. apply H, list_elem_of_here.
Qed.

(** C2, on the code: a time label without an hour ("noon") makes line 26
    raise ValueError, and the pipeline with it, whatever the revenue; a
    name without an id ("Set B") is dropped without an exception. *)
Theorem hour_label_raises :
  spend_data no_hour_spend = Raise ValueError ∧
  (∀ revenue_data,
     metrics_pipeline revenue_data no_hour_spend = Raise ValueError) ∧
  (∃ sd, spend_data no_id_spend = OK sd ∧
         spend_cleaned sd
         = [ {| cs_campid := 12345; cs_hour := 10;
                hourly_spend := 50; hourly_results := 5 |} ]).
Proof.
  split; [vm_compute; reflexivity|]. split; [intros; vm_compute; reflexivity|].
  eexists. split; [vm_compute; reflexivity|]. vm_compute; reflexivity.
Qed.

(** C3: in any frame the differencing reads, the hourly_revenue of a row
    is its estimated_earnings when no row of its campaign stands above it,
    and otherwise its estimated_earnings minus those of the nearest row of
    its campaign above it; hourly_clicks is the same on total_clicks.  The
    campaign with cumulative earnings 100, 150, 200 gets 100, 50, 50. *)
Theorem hourly_diff_by_campaign :
  (∀ (pre post : list NamedRow) (r : NamedRow),
     ∃ exact o,
       derive (pre ++ r :: post) = OK exact ∧
       exact !! length pre = Some o ∧
       o_key o = m_key (nr_row r) ∧
       hourly_revenue o
       = (match previous_row pre r with
          | Some p => estimated_earnings (nr_row r)
                      - estimated_earnings (nr_row p)
          | None => estimated_earnings (nr_row r)
          end)%Q ∧
       hourly_clicks o
       = (match previous_row pre r with
          | Some p => total_clicks (nr_row r) - total_clicks (nr_row p)
          | None => total_clicks (nr_row r)
          end)%Q) ∧
  (∃ sd exact,
     spend_data cumulative_spend = OK sd ∧
     derive (named_data cumulative_revenue sd) = OK exact ∧
     o_estimated_earnings <$> exact = [100; 150; 200]%Q ∧
     hourly_revenue <$> exact = [100; 50; 50]%Q ∧
     hourly_clicks <$> exact = [4; 2; 3]%Q ∧
     metrics_pipeline cumulative_revenue cumulative_spend
     = OK (round_row <$> exact) ∧
     hourly_revenue ∘ round_row <$> exact = [100; 50; 50]%Q).
Proof.
  split.
  - intros pre post r.
    destruct (derive_total (pre ++ r :: post)) as [exact He].
    destruct (derive_rows _ _ He) as (Hrows & Hrev & Hclk).
    assert ((pre ++ r :: post) !! length pre = Some r) as Hr
      by by apply list_lookup_middle.
    destruct (Forall2_lookup_l _ _ _ _ _ Hrows Hr) as (o & Ho & Hk & _).
    exists exact, o. split; [done|]. split; [done|]. split; [done|].
    pose proof (diff_fillna_lookup (estimated_earnings ∘ nr_row) pre r post)
      as H1.
    pose proof (diff_fillna_lookup (total_clicks ∘ nr_row) pre r post) as H2.
    fold (hourly_revenue_col (pre ++ r :: post)) in H1.
    fold (hourly_clicks_col (pre ++ r :: post)) in H2.
    rewrite <- Hrev, list_lookup_fmap, Ho in H1.
    rewrite <- Hclk, list_lookup_fmap, Ho in H2.
    simpl in H1, H2. split; congruence.
  - do 2 eexists. evaluate.
Qed.

(** C4: the profit_loss of every row of the report is the classification
    of the profit as computed, before any rounding: 'Profit' above 0,
    'Loss' below 0 and 'Break-Even' at 0.  The report row is that row with
    its ten numeric columns rounded to 2 decimal places afterwards: each is
    shown as a whole number of hundredths, the nearest to the value
    computed up to the rounding error of float64 ([rounded_to_2_places]),
    and the campaign id, the name, the hour and the label are left as
    they are.  With earnings 50.004 and spend 50 the profit is
    0.004: the row is a 'Profit' and shows a profit of 0, earnings of 50
    and a roi of 0.01. *)
Theorem classified_before_rounding :
  (∀ revenue_data spend out,
     metrics_pipeline revenue_data spend = OK out →
     ∃ sd exact,
       spend_data spend = OK sd ∧
       derive (named_data revenue_data sd) = OK exact ∧
       Forall2 (λ e o, profit e = (hourly_revenue e - o_hourly_spend e)%Q ∧
                       profit_loss o = classify (profit e) ∧
                       ((0 < profit e)%Q → profit_loss o = "Profit") ∧
                       ((profit e < 0)%Q → profit_loss o = "Loss") ∧
                       ((profit e == 0)%Q → profit_loss o = "Break-Even") ∧
                       shown_as e o)
               exact out) ∧
  (∃ e,
     spend_data small_profit_spend = OK small_profit_spend_data ∧
     derive (named_data small_profit_revenue small_profit_spend_data)
     = OK [e] ∧
     metrics_pipeline small_profit_revenue small_profit_spend
     = OK small_profit_report ∧
     o_estimated_earnings e = 50.004%Q ∧ o_hourly_spend e = 50%Q ∧
     profit e = 0.004%Q ∧ (roi e == 0.008)%Q ∧
     profit_loss <$> small_profit_report = ["Profit"] ∧
     profit <$> small_profit_report = [0%Q] ∧
     classify ∘ profit <$> small_profit_report = ["Break-Even"]).
Proof.
  split.
  - intros rev spend out H.
    apply metrics_pipeline_inv in H as (sd & exact & Hsd & He & ->).
    exists sd, exact. repeat split; try done.
    apply derive_equations in He.
    induction He as [|e exact He _ IH]; [constructor|].
    rewrite fmap_cons. constructor; [|done].
    destruct He as (_ & _ & _ & _ & _ & _ & Hp & Hc).
    destruct (classify_spec (profit e)) as (H1 & H2 & H3).
    simpl. rewrite Hc. repeat split; try done.
    apply round_row_shown_as.
  - eexists. evaluate.
Qed.

Lemma classified_before_rounding_witness :
  metrics_pipeline small_profit_revenue small_profit_spend
  = OK small_profit_report ∧
  ∃ sd exact,
    spend_data small_profit_spend = OK sd ∧
    derive (named_data small_profit_revenue sd) = OK exact ∧
    Forall2 (λ e o, profit e = (hourly_revenue e - o_hourly_spend e)%Q ∧
                    profit_loss o = classify (profit e) ∧
                    ((0 < profit e)%Q → profit_loss o = "Profit") ∧
                    ((profit e < 0)%Q → profit_loss o = "Loss") ∧
                    ((profit e == 0)%Q → profit_loss o = "Break-Even") ∧
                    shown_as e o)
            exact small_profit_report.
Proof.
  split; [vm_compute; reflexivity|].
  apply (proj1 classified_before_rounding). vm_compute; reflexivity.
Defined.



(** C6, amended: the derivations never raise, and on the values
    computed at lines 66-79, before the rounding of line 87, hourly_rpc is
    hourly_revenue / hourly_clicks when hourly_clicks > 0 and 0 otherwise,
    hourly_cpr is hourly_spend / hourly_results when hourly_results > 0
    and 0 otherwise, and roi is profit / hourly_spend * 100 when
    hourly_spend > 0 and 0 otherwise ([metric_equations]); each row of the
    report shows the values of one such row with 2 decimal places, and the
    pipeline never raises ZeroDivisionError. *)
Theorem guarded_metrics :
  (∀ rows : list NamedRow,
     ∃ exact, derive rows = OK exact ∧ Forall metric_equations exact) ∧
  (∀ revenue_data spend out,
     metrics_pipeline revenue_data spend = OK out →
     ∃ sd exact, spend_data spend = OK sd ∧
                 derive (named_data revenue_data sd) = OK exact ∧
                 Forall metric_equations exact ∧
                 Forall2 shown_as exact out) ∧
  (∀ revenue_data spend,
     metrics_pipeline revenue_data spend ≠ Raise ZeroDivisionError).
Proof.
  split; [|split].
  - intros rows. destruct (derive_total rows) as [exact He].
    exists exact. split; [done|]. by eapply derive_equations.
  - intros rev spend out H.
    apply metrics_pipeline_inv in H as (sd & exact & Hsd & He & ->).
    exists sd, exact. split; [done|]. split; [done|].
    split; [by eapply derive_equations|apply round_rows_shown_as].
  - intros rev spend. unfold metrics_pipeline.
    destruct (spend_data spend) as [sd|e] eqn:Hsd; simpl.
    + destruct (derive_total (named_data rev sd)) as [exact ->]. done.
    + intros [= ->]. apply traverse_Raise_inv in Hsd as (r & _ & Hr).
      unfold add_campid_hour, hour_of_label, int64_of_object in Hr.
      destruct (search_digits_colon _); [|done].
      by destruct (_ <? _).
Qed.

Lemma guarded_metrics_witness :
  metrics_pipeline guard_revenue guard_spend = OK guard_report ∧
  ∃ sd exact, spend_data guard_spend = OK sd ∧
              derive (named_data guard_revenue sd) = OK exact ∧
              Forall metric_equations exact ∧
              Forall2 shown_as exact guard_report.
Proof.
  assert (metrics_pipeline guard_revenue guard_spend = OK guard_report)
    as H by (vm_compute; reflexivity).
  split; [exact H|].
  exact (proj1 (proj2 guarded_metrics) _ _ _ H).
Defined.

(** C6 as it was stated, for every output row, does not hold: in the
    report on [guard_revenue] and [guard_spend] the row of campaign 1 has
    an hourly_clicks of 3 > 0 and shows an hourly_rpc of 0.33, not its
    hourly_revenue 1 divided by 3, and it shows an hourly_spend of 0 beside
    a roi of 24900, not 0. *)
Lemma guarded_metrics_fail_on_shown_values :
  metrics_pipeline guard_revenue guard_spend = OK guard_report ∧
  ∃ o, o ∈ guard_report ∧
       hourly_revenue o = 1%Q ∧ hourly_clicks o = 3%Q ∧
       hourly_rpc o = (33 # 100)%Q ∧
       (0 < hourly_clicks o)%Q ∧
       ¬ (hourly_rpc o == hourly_revenue o / hourly_clicks o)%Q ∧
       o_hourly_spend o = 0%Q ∧ roi o = 24900%Q ∧
       ¬ (0 < o_hourly_spend o)%Q ∧ ¬ (roi o == 0)%Q.
Proof.
  split; [vm_compute; reflexivity|].
  eexists. split; [apply list_elem_of_here|]. simpl.
  repeat split; try done; vm_compute; congruence.
Qed.

(** C7, on the code: with the ad sets "A (1)" and "B (1)", whose first
    occurrence for campaign 1 is "A (1)", the report names campaign 1 once
    "A (1)" and once "B (1)". *)
Theorem shared_id_two_names :
  campid_of_name "A (1)" = Some 1 ∧ campid_of_name "B (1)" = Some 1 ∧
  ∃ out, metrics_pipeline shared_id_revenue shared_id_spend = OK out ∧
         (λ r, (o_campid r, o_campaign_name r)) <$> out
         = [(1, Some "A (1)"); (1, Some "B (1)")].
Proof.
  split; [vm_compute; reflexivity|]. split; [vm_compute; reflexivity|].
  eexists. evaluate.
Qed.

(** C8: the end-to-end scenario.  Revenue rows (12345, 10, 500, 10) and
    (12345, 11, 800, 25) with the spend rows of "Set (12345)" at "10:00"
    (50, 5) and "11:00" (80, 8) give exactly the two rows of
    [end_to_end_report]: hour 10 with hourly_revenue 500, hourly_clicks 10,
    hourly_rpc 50, hourly_cpr 10, profit 450, roi 900, "Profit", and
    hour 11 with 300, 15, 20, 10, 220, 275, "Profit". *)
Theorem end_to_end_scenario :
  metrics_pipeline end_to_end_revenue end_to_end_spend
  = OK end_to_end_report.
Proof. vm_compute; reflexivity. Qed.

(** C9, on the code: the merged frame of line 54 is in ascending key order
    ([merged_data_sorted]), here (1, 10), (1, 11); the frame that is
    differenced is the one of line 59, here with both hours twice, and the
    second row of each hour subtracts the first row of the same hour:
    hourly_revenue is 500, 0, 300, 0. *)
Theorem diff_after_name_merge :
  ∃ sd out,
    spend_data two_hours_spend = OK sd ∧
    m_key <$> merged_data two_hours_revenue sd = [(1, 10); (1, 11)] ∧
    (m_key ∘ nr_row) <$> named_data two_hours_revenue sd
    = [(1, 10); (1, 10); (1, 11); (1, 11)] ∧
    metrics_pipeline two_hours_revenue two_hours_spend = OK out ∧
    (λ r, (o_hour r, o_estimated_earnings r, hourly_revenue r)) <$> out
    = [(10, 500%Q, 500%Q); (10, 500%Q, 0%Q);
       (11, 800%Q, 300%Q); (11, 800%Q, 0%Q)].
Proof.
  do 2 eexists. evaluate.
Qed.

(** C10: whenever the hours are read, every row of [spend_cleaned] takes
    its four values from a spend row that has all of them: an id in its
    name, an hour in its label, an amount and a result count; and a spend
    row without an amount or without a result count leaves no row: the
    cleaned frame is the one of the input without that row. *)
Theorem dropna_missing_values spend sd :
  spend_data spend = OK sd →
  (∀ c, c ∈ spend_cleaned sd →
     ∃ r x, r ∈ spend ∧
            campid_of_name (ad_set_name r) = Some x ∧
            cs_campid c = int64_of_float x ∧
            hour_of_label (time_of_day r) = OK (cs_hour c) ∧
            amount_spent r = Some (hourly_spend c) ∧
            results r = Some (hourly_results c)) ∧
  (∀ pre r post,
     spend = pre ++ r :: post →
     amount_spent r = None ∨ results r = None →
     ∃ sd', spend_data (pre ++ post) = OK sd' ∧
            spend_cleaned sd = spend_cleaned sd').
Proof.
  intros Hsd. split.
  - intros c Hc. apply elem_of_spend_cleaned in Hc
      as (d & x & Hd & H1 & H2 & H3 & H4 & H5).
    apply spend_data_rows in Hsd.
    apply list_elem_of_lookup in Hd as [i Hi].
    destruct (Forall2_lookup_r _ _ _ _ _ Hsd Hi) as (r & Hr & <- & Hc' & Hh).
    exists (sd_record d), x. rewrite <- Hc', H3.
    repeat split; try done. by eapply list_elem_of_lookup_2.
  - intros pre r post -> Hnull. unfold spend_data in *.
    rewrite traverse_app in Hsd. rewrite traverse_app.
    destruct (traverse add_campid_hour pre) as [sd1|]; simpl in *; [|done].
    destruct (add_campid_hour r) as [d|] eqn:Hd; simpl in *; [|done].
    destruct (traverse add_campid_hour post) as [sd2|]; simpl in *; [|done].
    injection Hsd as <-. exists (sd1 ++ sd2). split; [done|].
    rewrite !spend_cleaned_app. f_equal.
    change (d :: sd2) with ([d] ++ sd2). rewrite spend_cleaned_app.
    assert (dropna d = None) as Hdrop.
    { apply dropna_None. right. unfold add_campid_hour in Hd.
      destruct (hour_of_label _); simpl in Hd; [|done].
      injection Hd as <-. done. }
    unfold spend_cleaned at 1. simpl. by rewrite Hdrop.
Qed.

Lemma dropna_missing_values_witness :
  spend_data ([spend_row "Set (12345)" "10:00" 50 5]
              ++ missing_amount_row :: [])
  = OK missing_amount_spend_data ∧
  amount_spent missing_amount_row = None ∧
  ∃ sd', spend_data ([spend_row "Set (12345)" "10:00" 50 5] ++ []) = OK sd' ∧
         spend_cleaned missing_amount_spend_data = spend_cleaned sd'.
Proof.
  assert (spend_data ([spend_row "Set (12345)" "10:00" 50 5]
                      ++ missing_amount_row :: [])
          = OK missing_amount_spend_data) as H by (vm_compute; reflexivity).
  split; [exact H|]. split; [reflexivity|].
  apply (proj2 (dropna_missing_values _ _ H)
           [spend_row "Set (12345)" "10:00" 50 5] missing_amount_row []).
  - reflexivity.
  - left. reflexivity.
Defined.

(** * Further properties of the script *)

(** ** The regular expressions (lines 25-26) *)

Lemma span_digits_inv (s ds tl : string) :
  span_digits s = (ds, tl) →
  s = ds +:+ tl ∧ all_digits ds = true ∧
  match tl with String c _ => is_digit c = false | EmptyString => True end.
Proof.
  revert ds tl. induction s as [|c s IH]; intros ds tl; simpl.
  - by intros [= <- <-].
  - destruct (is_digit c) eqn:Hc.
    + destruct (span_digits s) as [ds' tl'] eqn:E. intros [= <- <-].
      destruct (IH _ _ eq_refl) as (-> & Hd & Htl). simpl.
      by rewrite Hc, Hd.
    + intros [= <- <-]. by rewrite Hc.
Qed.

Lemma span_digits_app (ds tl : string) :
  all_digits ds = true →
  match tl with String c _ => is_digit c = false | EmptyString => True end →
  span_digits (ds +:+ tl) = (ds, tl).
Proof.
  intros Hd Htl. induction ds as [|c ds IH]; simpl in *.
  - destruct tl as [|c tl]; [done|]. simpl. by rewrite Htl.
  - apply andb_prop in Hd as [-> Hd]. by rewrite (IH Hd).
Qed.

Lemma string_app_cons (x : ascii) (a b : string) :
  String x a +:+ b = String x (a +:+ b).
Proof. reflexivity. Qed.

Lemma string_app_assoc (a b c : string) : (a +:+ b) +:+ c = a +:+ b +:+ c.
Proof.
  induction a as [|x a IH]; [done|]. by rewrite !string_app_cons, IH.
Qed.

Lemma string_app_length (a b : string) :
  String.length (a +:+ b) = (String.length a + String.length b)%nat.
Proof.
  induction a as [|x a IH]; [done|]. rewrite string_app_cons. simpl.
  by rewrite IH.
Qed.

(** Two numbers that start the same string, each followed by a character
    that is not a digit, are the same number. *)
Lemma number_prefix_unique (d1 d2 t1 t2 : string) :
  all_digits d1 = true → all_digits d2 = true →
  match t1 with String c _ => is_digit c = false | EmptyString => True end →
  match t2 with String c _ => is_digit c = false | EmptyString => True end →
  d1 +:+ t1 = d2 +:+ t2 → d1 = d2 ∧ t1 = t2.
Proof.
  intros H1 H2 Ht1 Ht2 E.
  pose proof (span_digits_app d1 t1 H1 Ht1) as E1.
  pose proof (span_digits_app d2 t2 H2 Ht2) as E2.
  rewrite E, E2 in E1. by injection E1 as -> ->.
Qed.

Lemma paren_here_spec (s ds : string) :
  paren_here s = Some ds ↔
  number ds ∧ ∃ post, s = "(" +:+ ds +:+ ")" +:+ post.
Proof.
  split.
  - destruct s as [|c rest]; simpl; [done|].
    destruct (Ascii.eqb_spec c "("%char) as [->|]; [|done].
    destruct (span_digits rest) as [d tl] eqn:E.
    apply span_digits_inv in E as (-> & Hd & Htl).
    destruct d as [|d0 d]; [done|]. destruct tl as [|c' tl]; [done|].
    destruct (Ascii.eqb_spec c' ")"%char) as [->|]; [|done].
    intros [= <-]. split; [by split|]. by exists tl.
  - intros [[Hne Hd] [post ->]].
    change ("(" +:+ ds +:+ ")" +:+ post)
      with (String "(" (ds +:+ String ")" post)).
    unfold paren_here. rewrite Ascii.eqb_refl.
    rewrite (span_digits_app ds (String ")" post) Hd) by done.
    destruct ds as [|d0 ds]; done.
Qed.

Lemma colon_here_spec (s ds : string) :
  colon_here s = Some ds ↔ number ds ∧ ∃ post, s = ds +:+ ":" +:+ post.
Proof.
  unfold colon_here. split.
  - destruct (span_digits s) as [d tl] eqn:E.
    apply span_digits_inv in E as (-> & Hd & Htl).
    destruct d as [|d0 d]; [done|]. destruct tl as [|c' tl]; [done|].
    destruct (Ascii.eqb_spec c' ":"%char) as [->|]; [|done].
    intros [= <-]. split; [by split|]. by exists tl.
  - intros [[Hne Hd] [post ->]].
    change (ds +:+ ":" +:+ post) with (ds +:+ String ":" post).
    rewrite (span_digits_app ds (String ":" post) Hd) by done.
    destruct ds as [|d0 ds]; done.
Qed.

Lemma search_paren_digits_unfold (c : ascii) (rest : string) :
  search_paren_digits (String c rest)
  = match paren_here (String c rest) with
    | Some ds => Some ds
    | None => search_paren_digits rest
    end.
Proof.
  simpl. destruct (Ascii.eqb c "("%char); [|done].
  destruct (span_digits rest) as [[|d ds] [|c' tl]]; try done.
  by destruct (Ascii.eqb c' ")"%char).
Qed.

Lemma search_digits_colon_unfold (c : ascii) (rest : string) :
  search_digits_colon (String c rest)
  = match colon_here (String c rest) with
    | Some ds => Some ds
    | None => search_digits_colon rest
    end.
Proof.
  unfold colon_here. simpl.
  destruct (is_digit c); [|done].
  destruct (span_digits rest) as [ds [|c' tl]]; try done.
  by destruct (Ascii.eqb c' ":"%char).
Qed.

(** A search that tries [here] at every position from the left returns
    the number of the leftmost match, and nothing when there is none. *)
Section FirstMatch.
Variable here : string → option string.
Variable shape : string → string → string.
Variable search : string → option string.
Hypothesis here_spec :
  ∀ s ds, here s = Some ds ↔ number ds ∧ ∃ post, s = shape ds post.
Hypothesis here_nil : here EmptyString = None.
Hypothesis search_nil : search EmptyString = None.
Hypothesis search_cons :
  ∀ c rest, search (String c rest)
            = match here (String c rest) with
              | Some ds => Some ds
              | None => search rest
              end.

Lemma here_None_shape (s ds post : string) :
  here s = None → number ds → s ≠ shape ds post.
Proof.
  intros Hh Hn E. assert (here s = Some ds) as Hs; [|congruence].
  apply here_spec. split; [done|]. by exists post.
Qed.

Lemma first_match (s : string) :
  match search s with
  | Some ds =>
      number ds ∧
      ∃ pre post,
        s = pre +:+ shape ds post ∧
        ∀ pre' ds' post',
          number ds' → s = pre' +:+ shape ds' post' →
          (String.length pre ≤ String.length pre')%nat
  | None => ∀ pre ds post, number ds → s ≠ pre +:+ shape ds post
  end.
Proof.
  induction s as [|c rest IH].
  - rewrite search_nil. intros [|c pre] ds post Hn; [|done].
    by apply here_None_shape.
  - rewrite search_cons. destruct (here (String c rest)) as [ds|] eqn:Hh.
    + apply here_spec in Hh as [Hn [post E]]. split; [done|].
      exists EmptyString, post. split; [done|]. intros. simpl. lia.
    + destruct (search rest) as [ds|].
      * destruct IH as (Hn & pre & post & E & Hleft). split; [done|].
        exists (String c pre), post. split.
        { by rewrite string_app_cons, <- E. }
        intros [|c' pre'] ds' post' Hn' E'.
        { exfalso. by eapply here_None_shape. }
        rewrite string_app_cons in E'. injection E' as <- E'.
        specialize (Hleft _ _ _ Hn' E'). simpl. lia.
      * intros [|c' pre] ds post Hn E.
        { by eapply here_None_shape. }
        rewrite string_app_cons in E. injection E as <- E.
        by eapply IH.
Qed.
End FirstMatch.

(** X1: the campaign id of a name is the number of its leftmost
    "(digits)": a number, between parentheses in the name, with no such
    occurrence starting further left; a name has no id exactly when no
    number stands between parentheses anywhere in it. *)
Theorem search_paren_digits_leftmost_match (s : string) :
  match search_paren_digits s with
  | Some ds =>
      number ds ∧
      ∃ pre post,
        s = pre +:+ "(" +:+ ds +:+ ")" +:+ post ∧
        ∀ pre' ds' post',
          number ds' → s = pre' +:+ "(" +:+ ds' +:+ ")" +:+ post' →
          (String.length pre ≤ String.length pre')%nat
  | None =>
      ∀ pre ds post, number ds → s ≠ pre +:+ "(" +:+ ds +:+ ")" +:+ post
  end.
Proof.
  apply (first_match paren_here (λ ds post, "(" +:+ ds +:+ ")" +:+ post)).
  - apply paren_here_spec.
  - done.
  - done.
  - apply search_paren_digits_unfold.
Qed.

(** X2: the hour of a time label is the number of its leftmost
    "digits:": a number, followed by a colon in the label, with no such
    occurrence starting further left; a label has no hour exactly when no
    number is followed by a colon anywhere in it. *)
Theorem search_digits_colon_leftmost_match (s : string) :
  match search_digits_colon s with
  | Some ds =>
      number ds ∧
      ∃ pre post,
        s = pre +:+ ds +:+ ":" +:+ post ∧
        ∀ pre' ds' post',
          number ds' → s = pre' +:+ ds' +:+ ":" +:+ post' →
          (String.length pre ≤ String.length pre')%nat
  | None => ∀ pre ds post, number ds → s ≠ pre +:+ ds +:+ ":" +:+ post
  end.
Proof.
  apply (first_match colon_here (λ ds post, ds +:+ ":" +:+ post)).
  - apply colon_here_spec.
  - done.
  - done.
  - apply search_digits_colon_unfold.
Qed.

(** ** The hour conversion of line 26 *)


Lemma hour_of_label_Raise (label : string) (e : exn) :
  hour_of_label label = Raise e ↔
  (e = ValueError ∧ search_digits_colon label = None) ∨
  (e = OverflowError ∧
   ∃ ds, search_digits_colon label = Some ds ∧ 2 ^ 63 ≤ digits_value ds).
Proof.
  unfold hour_of_label, int64_of_object.
  destruct (search_digits_colon label) as [ds|].
  - destruct (digits_value ds <? 2 ^ 63) eqn:E.
    + apply Z.ltb_lt in E. split; [done|].
      intros [[_ ?]|(_ & ? & [= <-] & ?)]; [done|lia].
    + apply Z.ltb_ge in E. split.
      * intros [= <-]. right. split; [done|]. by exists ds.
      * intros [[_ ?]|[-> _]]; done.
  - split.
    + intros [= <-]. by left.
    + intros [[-> _]|(_ & ? & ? & _)]; done.
Qed.

Lemma spend_data_first_Raise pre r post e :
  Forall (λ r', ∃ h, hour_of_label (time_of_day r') = OK h) pre →
  hour_of_label (time_of_day r) = Raise e →
  spend_data (pre ++ r :: post) = Raise e.
Proof.
  intros Hpre Hr. unfold spend_data. rewrite traverse_app.
  assert (∃ sd, spend_data pre = OK sd) as [sd Hsd]
    by by apply spend_data_OK_iff.
  unfold spend_data in Hsd. rewrite Hsd. simpl.
  unfold add_campid_hour. by rewrite Hr.
Qed.

(** X4: when the time labels above a row all hold an hour and the label
    of the row does not, the pipeline raises the exception of that row,
    whatever the revenue and whatever follows the row: ValueError when the
    label has no number before a colon, OverflowError when the number is
    2^63 or more. *)
Theorem first_bad_label_raises (revenue_data : list RevenueRecord)
    (pre post : list SpendRecord) (r : SpendRecord) (e : exn) :
  Forall (λ r', ∃ h, hour_of_label (time_of_day r') = OK h) pre →
  hour_of_label (time_of_day r) = Raise e →
  metrics_pipeline revenue_data (pre ++ r :: post) = Raise e ∧
  ((e = ValueError ∧ search_digits_colon (time_of_day r) = None) ∨
   (e = OverflowError ∧
    ∃ ds, search_digits_colon (time_of_day r) = Some ds ∧
          2 ^ 63 ≤ digits_value ds)).
Proof.
  intros Hpre Hr. split; [|by apply hour_of_label_Raise].
  unfold metrics_pipeline.
  by rewrite (spend_data_first_Raise pre r post e Hpre Hr).
Qed.

Lemma first_bad_label_raises_witness :
  Forall (λ r', ∃ h, hour_of_label (time_of_day r') = OK h)
    [spend_row "Set (12345)" "10:00" 50 5] ∧
  hour_of_label
    (time_of_day (spend_row "Set (12345)" "99999999999999999999:00" 80 8))
  = Raise OverflowError ∧
  metrics_pipeline end_to_end_revenue
    ([spend_row "Set (12345)" "10:00" 50 5]
     ++ spend_row "Set (12345)" "99999999999999999999:00" 80 8
     :: [spend_row "Set (12345)" "noon" 1 1])
  = Raise OverflowError.
Proof.
  assert (Forall (λ r', ∃ h, hour_of_label (time_of_day r') = OK h)
            [spend_row "Set (12345)" "10:00" 50 5]) as H1.
  { constructor; [|constructor]. exists 10. vm_compute; reflexivity. }
  assert (hour_of_label
            (time_of_day
               (spend_row "Set (12345)" "99999999999999999999:00" 80 8))
          = Raise OverflowError) as H2 by (vm_compute; reflexivity).
  split; [exact H1|]. split; [exact H2|].
  exact (proj1 (first_bad_label_raises end_to_end_revenue _
                  [spend_row "Set (12345)" "noon" 1 1] _ _ H1 H2)).
Defined.

(** ** Where the rows of the report come from *)

Lemma derive_row_fields (r : NamedRow) (x y : Q) (o : MetricsRow) :
  derive_row r x y = OK o →
  o_key o = m_key (nr_row r) ∧
  o_estimated_earnings o = estimated_earnings (nr_row r) ∧
  o_total_clicks o = total_clicks (nr_row r) ∧
  o_hourly_spend o = m_hourly_spend (nr_row r) ∧
  o_hourly_results o = m_hourly_results (nr_row r).
Proof.
  unfold derive_row. rewrite !guarded_div_OK. simpl.
  rewrite guarded_roi_OK. simpl. by intros [= <-].
Qed.

Lemma derive_Forall2 (P : NamedRow → MetricsRow → Prop) rows exact :
  (∀ r x y o, derive_row r x y = OK o → P r o) →
  derive rows = OK exact → Forall2 P rows exact.
Proof.
  intros HP H. apply traverse_OK in H.
  assert (Hl1 : length (hourly_revenue_col rows) = length rows).
  { unfold hourly_revenue_col. rewrite fillna_length;
      rewrite ?length_fmap, ?group_diff_length; done. }
  assert (Hl2 : length (hourly_clicks_col rows) = length rows).
  { unfold hourly_clicks_col. rewrite fillna_length;
      rewrite ?length_fmap, ?group_diff_length; done. }
  revert H Hl1 Hl2.
  generalize (hourly_revenue_col rows) (hourly_clicks_col rows).
  intros xs ys. revert xs ys exact.
  induction rows as [|r rows IH]; intros [|x xs] [|y ys] exact H; try done.
  - inversion H; subst. constructor.
  - simpl in H. inversion H as [|? o ? exact' Ho Hrest]; subst.
    intros [= Hl1] [= Hl2]. constructor; [by eapply HP|by eapply IH].
Qed.

Lemma elem_of_merge_inner (m : MergedRow) left right :
  m ∈ merge_inner left right ↔
  ∃ l r, l ∈ left ∧ r ∈ right ∧ cs_key r = ar_key l ∧
         m = {| campid := ar_campid l; hour := ar_hour l;
                estimated_earnings := ar_estimated_earnings l;
                total_clicks := ar_total_clicks l;
                m_hourly_spend := hourly_spend r;
                m_hourly_results := hourly_results r |}.
Proof.
  unfold merge_inner. rewrite list_elem_of_bind. split.
  - intros (l & Hm & Hl). apply list_elem_of_bind in Hm as (r & Hm & Hr).
    apply list_elem_of_filter in Hr as [Hk Hr].
    apply list_elem_of_singleton in Hm. by exists l, r.
  - intros (l & r & Hl & Hr & Hk & ->). exists l. split; [|done].
    apply list_elem_of_bind. exists r.
    split; [by apply list_elem_of_singleton|by apply list_elem_of_filter].
Qed.

Lemma elem_of_aggregate_revenue (l : AggregatedRevenue) rows :
  l ∈ aggregate_revenue rows →
  ar_key l ∈ rv_key <$> rows ∧
  ar_estimated_earnings l
  = agg_sum_skipna
      (rv_estimated_earnings <$> filter (λ r, rv_key r = ar_key l) rows) ∧
  ar_total_clicks l
  = agg_sum_skipna (rv_clicks <$> filter (λ r, rv_key r = ar_key l) rows).
Proof.
  unfold aggregate_revenue.
  intros ([c h] & -> & Hk)%list_elem_of_fmap.
  rewrite elem_of_group_keys in Hk. split; [exact Hk|split; reflexivity].
Qed.

Lemma elem_of_aggregate_spend (c : CleanedSpend) rows :
  c ∈ aggregate_spend rows →
  cs_key c ∈ cs_key <$> rows ∧
  hourly_spend c
  = agg_sum (hourly_spend <$> filter (λ r, cs_key r = cs_key c) rows) ∧
  hourly_results c
  = agg_sum (hourly_results <$> filter (λ r, cs_key r = cs_key c) rows).
Proof.
  unfold aggregate_spend.
  intros ([k h] & -> & Hk)%list_elem_of_fmap.
  rewrite elem_of_group_keys in Hk. split; [exact Hk|split; reflexivity].
Qed.

(** The filter of line 34 keeps all the revenue rows of a campaign it
    keeps at all. *)
Lemma filter_revenue_filtered revenue_data matching (k : key) :
  k.1 ∈ matching →
  filter (λ r, rv_key r = k) (revenue_filtered revenue_data matching)
  = filter (λ r, rv_key r = k) revenue_data.
Proof.
  intros Hk. unfold revenue_filtered.
  induction revenue_data as [|v rev IH]; [done|].
  rewrite (filter_cons (λ r, rv_key r = k)).
  rewrite (filter_cons (λ r, rv_campid r ∈ matching)).
  destruct (decide (rv_key v = k)) as [Hv|Hv].
  - rewrite decide_True by (by rewrite <- Hv in Hk).
    by rewrite filter_cons, decide_True, IH.
  - destruct (decide (rv_campid v ∈ matching)); [|done].
    by rewrite filter_cons, decide_False.
Qed.

Lemma derived_row_sources revenue_data sd exact (e : MetricsRow) :
  derive (named_data revenue_data sd) = OK exact →
  e ∈ exact →
  ∃ l c,
    l ∈ aggregate_revenue
          (revenue_filtered revenue_data
             (matching_campaigns (spend_cleaned sd))) ∧
    c ∈ aggregate_spend (spend_cleaned sd) ∧
    ar_key l = o_key e ∧ cs_key c = o_key e ∧
    o_estimated_earnings e = ar_estimated_earnings l ∧
    o_total_clicks e = ar_total_clicks l ∧
    o_hourly_spend e = hourly_spend c ∧
    o_hourly_results e = hourly_results c.
Proof.
  intros He Hin.
  apply (derive_Forall2 _ _ _ derive_row_fields) in He.
  apply list_elem_of_lookup in Hin as [i Hi].
  destruct (Forall2_lookup_r _ _ _ _ _ He Hi)
    as (n & Hn & Hk & H1 & H2 & H3 & H4).
  apply list_elem_of_lookup_2 in Hn.
  apply elem_of_merge_left in Hn as [Hm _].
  apply elem_of_merge_inner in Hm as (l & c & Hl & Hc & Hlc & Hm).
  exists l, c. rewrite Hk, Hlc, H1, H2, H3, H4, Hm. done.
Qed.

Lemma report_row_sources revenue_data sd exact (o : MetricsRow) :
  derive (named_data revenue_data sd) = OK exact →
  o ∈ round_row <$> exact →
  ∃ l c,
    l ∈ aggregate_revenue
          (revenue_filtered revenue_data
             (matching_campaigns (spend_cleaned sd))) ∧
    c ∈ aggregate_spend (spend_cleaned sd) ∧
    ar_key l = o_key o ∧ cs_key c = o_key o ∧
    o_estimated_earnings o = round2 (ar_estimated_earnings l) ∧
    o_total_clicks o = round2 (ar_total_clicks l) ∧
    o_hourly_spend o = round2 (hourly_spend c) ∧
    o_hourly_results o = round2 (hourly_results c).
Proof.
  intros He (e & -> & Hin)%list_elem_of_fmap.
  apply (derive_Forall2 _ _ _ derive_row_fields) in He.
  apply list_elem_of_lookup in Hin as [i Hi].
  destruct (Forall2_lookup_r _ _ _ _ _ He Hi)
    as (n & Hn & Hk & H1 & H2 & H3 & H4).
  apply list_elem_of_lookup_2 in Hn.
  apply elem_of_merge_left in Hn as [Hm _].
  apply elem_of_merge_inner in Hm as (l & c & Hl & Hc & Hlc & Hm).
  exists l, c. rewrite round_row_key, Hk, Hlc. simpl.
  rewrite H1, H2, H3, H4, Hm. done.
Qed.

Lemma spend_cleaned_origin spend sd (c : CleanedSpend) :
  spend_data spend = OK sd → c ∈ spend_cleaned sd →
  ∃ r x, r ∈ spend ∧
         campid_of_name (ad_set_name r) = Some x ∧
         cs_campid c = int64_of_float x ∧
         hour_of_label (time_of_day r) = OK (cs_hour c) ∧
         amount_spent r = Some (hourly_spend c) ∧
         results r = Some (hourly_results c).
Proof.
  intros Hsd Hc. apply elem_of_spend_cleaned in Hc
    as (d & x & Hd & H1 & H2 & H3 & H4 & H5).
  apply spend_data_rows in Hsd.
  apply list_elem_of_lookup in Hd as [i Hi].
  destruct (Forall2_lookup_r _ _ _ _ _ Hsd Hi) as (r & Hr & <- & Hc' & Hh).
  exists (sd_record d), x. rewrite <- Hc', H3.
  repeat split; try done. by eapply list_elem_of_lookup_2.
Qed.

Lemma spend_cleaned_complete spend sd (r : SpendRecord) x a n :
  spend_data spend = OK sd → r ∈ spend →
  campid_of_name (ad_set_name r) = Some x →
  amount_spent r = Some a → results r = Some n →
  ∃ c, c ∈ spend_cleaned sd ∧
       cs_campid c = int64_of_float x ∧
       hour_of_label (time_of_day r) = OK (cs_hour c) ∧
       hourly_spend c = a ∧ hourly_results c = n.
Proof.
  intros Hsd Hr Hx Ha Hn. apply spend_data_rows in Hsd.
  apply list_elem_of_lookup in Hr as [i Hi].
  destruct (Forall2_lookup_l _ _ _ _ _ Hsd Hi) as (d & Hd & Hrec & Hc & Hh).
  exists {| cs_campid := int64_of_float x; cs_hour := sd_hour d;
            hourly_spend := a; hourly_results := n |}.
  split; [|done]. apply elem_of_spend_cleaned. exists d, x. simpl.
  rewrite Hrec, Hc. repeat split; try done.
  by eapply list_elem_of_lookup_2.
Qed.








(** X5: every row of the report is backed by both sheets: a revenue row
    has its campaign id and hour, and a spend row has that id in its name
    and that hour in its time label, with its amount and its results
    present.  A campaign of the revenue files that no such spend row names
    is not in the report. *)
Theorem report_rows_have_sources (revenue_data : list RevenueRecord)
    (spend : list SpendRecord) (out : list MetricsRow) :
  metrics_pipeline revenue_data spend = OK out →
  Forall (λ o,
    (∃ v, v ∈ revenue_data ∧ rv_key v = o_key o) ∧
    (∃ r x, r ∈ spend ∧
            campid_of_name (ad_set_name r) = Some x ∧
            o_campid o = int64_of_float x ∧
            hour_of_label (time_of_day r) = OK (o_hour o) ∧
            is_Some (amount_spent r) ∧ is_Some (results r))) out.
Proof.
  intros H. apply metrics_pipeline_inv in H as (sd & exact & Hsd & He & ->).
  apply Forall_forall. intros o Ho.
  destruct (report_row_sources _ _ _ _ He Ho)
    as (l & c & Hl & Hc & Hlk & Hck & _).
  split.
  - apply elem_of_aggregate_revenue in Hl as [Hl _].
    apply revenue_filtered_keys in Hl as [Hl _].
    apply list_elem_of_fmap in Hl as (v & Hv & Hin).
    exists v. split; [done|]. congruence.
  - apply elem_of_aggregate_spend in Hc as [Hc _].
    apply list_elem_of_fmap in Hc as (c' & Hk & Hin).
    destruct (spend_cleaned_origin _ _ _ Hsd Hin)
      as (r & x & Hr & Hx & Hid & Hh & Ha & Hn).
    rewrite Hck in Hk. injection Hk as Hk1 Hk2.
    exists r, x. rewrite Hk1, Hk2, Ha, Hn. by repeat split.
Qed.

Lemma report_rows_have_sources_witness :
  metrics_pipeline end_to_end_revenue end_to_end_spend
  = OK end_to_end_report ∧
  Forall (λ o,
    (∃ v, v ∈ end_to_end_revenue ∧ rv_key v = o_key o) ∧
    (∃ r x, r ∈ end_to_end_spend ∧
            campid_of_name (ad_set_name r) = Some x ∧
            o_campid o = int64_of_float x ∧
            hour_of_label (time_of_day r) = OK (o_hour o) ∧
            is_Some (amount_spent r) ∧ is_Some (results r)))
    end_to_end_report.
Proof.
  assert (metrics_pipeline end_to_end_revenue end_to_end_spend
          = OK end_to_end_report) as H by (vm_compute; reflexivity).
  split; [exact H|]. exact (report_rows_have_sources _ _ _ H).
Defined.



(** X7: before the rounding of line 87 the four aggregated columns of a
    row are the sums over its key: estimated_earnings and total_clicks are
    the sums of the present values of all the revenue rows with the
    campaign id and hour of the row, hourly_spend and hourly_results the
    sums over all the cleaned spend rows with that id and hour; the report
    shows these rows with 2 decimal places. *)
Theorem report_values_are_group_sums (revenue_data : list RevenueRecord)
    (spend : list SpendRecord) (sd : list SpendData)
    (out : list MetricsRow) :
  spend_data spend = OK sd →
  metrics_pipeline revenue_data spend = OK out →
  ∃ exact,
    derive (named_data revenue_data sd) = OK exact ∧
    Forall2 shown_as exact out ∧
    Forall (λ e,
      o_estimated_earnings e
      = agg_sum_skipna
          (rv_estimated_earnings
             <$> filter (λ v, rv_key v = o_key e) revenue_data) ∧
      o_total_clicks e
      = agg_sum_skipna
          (rv_clicks <$> filter (λ v, rv_key v = o_key e) revenue_data) ∧
      o_hourly_spend e
      = agg_sum
          (hourly_spend
             <$> filter (λ c, cs_key c = o_key e) (spend_cleaned sd)) ∧
      o_hourly_results e
      = agg_sum
          (hourly_results
             <$> filter (λ c, cs_key c = o_key e) (spend_cleaned sd)))
      exact.
Proof.
  intros Hsd H.
  apply metrics_pipeline_inv in H as (sd' & exact & Hsd' & He & ->).
  rewrite Hsd in Hsd'. injection Hsd' as <-.
  exists exact. split; [done|]. split; [apply round_rows_shown_as|].
  apply Forall_forall. intros e Hin.
  destruct (derived_row_sources _ _ _ _ He Hin)
    as (l & c & Hl & Hc & Hlk & Hck & -> & -> & -> & ->).
  apply elem_of_aggregate_revenue in Hl as (_ & -> & ->).
  apply elem_of_aggregate_spend in Hc as (Hc & -> & ->).
  rewrite Hlk, Hck, filter_revenue_filtered; [done|].
  rewrite Hck in Hc. by apply matching_campaigns_key.
Qed.

Lemma report_values_are_group_sums_witness :
  spend_data summed_spend = OK summed_spend_data ∧
  metrics_pipeline summed_revenue summed_spend = OK summed_report ∧
  ∃ exact,
    derive (named_data summed_revenue summed_spend_data) = OK exact ∧
    Forall2 shown_as exact summed_report ∧
    Forall (λ e,
      o_estimated_earnings e
      = agg_sum_skipna
          (rv_estimated_earnings
             <$> filter (λ v, rv_key v = o_key e) summed_revenue) ∧
      o_total_clicks e
      = agg_sum_skipna
          (rv_clicks <$> filter (λ v, rv_key v = o_key e) summed_revenue) ∧
      o_hourly_spend e
      = agg_sum
          (hourly_spend
             <$> filter (λ c, cs_key c = o_key e)
                   (spend_cleaned summed_spend_data)) ∧
      o_hourly_results e
      = agg_sum
          (hourly_results
             <$> filter (λ c, cs_key c = o_key e)
                   (spend_cleaned summed_spend_data)))
      exact.
Proof.
  assert (spend_data summed_spend = OK summed_spend_data) as H1
    by (vm_compute; reflexivity).
  assert (metrics_pipeline summed_revenue summed_spend
          = OK summed_report) as H2 by (vm_compute; reflexivity).
  split; [exact H1|]. split; [exact H2|].
  exact (report_values_are_group_sums _ _ _ _ H1 H2).
Defined.

(** X8: on a spend sheet whose hours are all read and whose campaign ids
    are all finite as floats (so that line 30 does not raise), cleaning
    loses no complete row: a spend row with a number between parentheses
    in its name, an amount and a result count gives a cleaned row with its
    hour, its amount and its result count; the id of that row is the
    number of the name taken through float64 and back, which is the number
    itself when it is below 2^53. *)
Theorem complete_rows_are_cleaned (spend : list SpendRecord)
    (sd : list SpendData) :
  finite_ids spend →
  spend_data spend = OK sd →
  Forall (λ r, ∀ ds a n,
    search_paren_digits (ad_set_name r) = Some ds →
    amount_spent r = Some a → results r = Some n →
    ∃ c, c ∈ spend_cleaned sd ∧
         hour_of_label (time_of_day r) = OK (cs_hour c) ∧
         hourly_spend c = a ∧ hourly_results c = n ∧
         cs_campid c = int64_of_float (float64_of_int (digits_value ds)) ∧
         (digits_value ds < 2 ^ 53 → cs_campid c = digits_value ds)) spend.
Proof.
  intros _ Hsd. apply Forall_forall. intros r Hr ds a n Hds Ha Hn.
  destruct (spend_cleaned_complete spend sd r
              (float64_of_int (digits_value ds)) a n Hsd Hr)
    as (c & Hc & Hid & Hh & Hs & Hres); try done.
  { unfold campid_of_name. by rewrite Hds. }
  exists c. repeat split; try done.
  intros Hlt. rewrite Hid. unfold float64_of_int, int64_of_float.
  apply Z.ltb_lt in Hlt as Hlt'. rewrite Hlt'.
  assert ((digits_value ds <? 2 ^ 63) = true) as ->
    by (apply Z.ltb_lt; lia).
  done.
Qed.

Lemma finite_ids_end_to_end_spend : finite_ids end_to_end_spend.
Proof.
  repeat constructor; intros ds H; vm_compute in H; injection H as <-;
    vm_compute; reflexivity.
Qed.

Lemma complete_rows_are_cleaned_witness :
  finite_ids end_to_end_spend ∧
  spend_data end_to_end_spend = OK end_to_end_spend_data ∧
  Forall (λ r, ∀ ds a n,
    search_paren_digits (ad_set_name r) = Some ds →
    amount_spent r = Some a → results r = Some n →
    ∃ c, c ∈ spend_cleaned end_to_end_spend_data ∧
         hour_of_label (time_of_day r) = OK (cs_hour c) ∧
         hourly_spend c = a ∧ hourly_results c = n ∧
         cs_campid c = int64_of_float (float64_of_int (digits_value ds)) ∧
         (digits_value ds < 2 ^ 53 → cs_campid c = digits_value ds))
    end_to_end_spend.
Proof.
  assert (spend_data end_to_end_spend = OK end_to_end_spend_data) as H
    by (vm_compute; reflexivity).
  split; [exact finite_ids_end_to_end_spend|]. split; [exact H|].
  exact (complete_rows_are_cleaned _ _ finite_ids_end_to_end_spend H).
Defined.

(** ** The order of the report *)

#[local] Instance key_le_refl : Reflexive key_le.
Proof. intros [a1 a2]; unfold key_le; simpl; lia. Qed.

Lemma key_lt_le (a b : key) : key_lt a b → key_le a b.
Proof.
  destruct a as [a1 a2], b as [b1 b2]. unfold key_le, key_lt; simpl. lia.
Qed.

Lemma StronglySorted_constant {A} (R : relation A) `{!Reflexive R}
    (x : A) (l : list A) :
  (∀ y, y ∈ l → y = x) → StronglySorted R l.
Proof.
  induction l as [|y l IH]; intros Hl; [constructor|].
  constructor.
  - apply IH. intros z Hz. by apply Hl, list_elem_of_further.
  - apply Forall_forall. intros z Hz.
    rewrite (Hl y), (Hl z); [done|by apply list_elem_of_further|].
    apply list_elem_of_here.
Qed.

Lemma merge_left_sorted left mapping :
  StronglySorted key_lt (m_key <$> left) →
  StronglySorted key_le ((m_key ∘ nr_row) <$> merge_left left mapping).
Proof.
  intros Hs. induction left as [|m left IH]; [constructor|].
  rewrite fmap_cons in Hs. apply StronglySorted_inv in Hs as [Hs Hm].
  unfold merge_left at 1. rewrite bind_cons, fmap_app.
  fold (merge_left left mapping).
  apply StronglySorted_app_2; [| |by apply IH].
  - intros k1 k2 Hk1 Hk2.
    assert (k1 = m_key m) as ->.
    { apply list_elem_of_fmap in Hk1 as (n & -> & Hn).
      destruct (filter _ mapping) as [|p ps].
      - apply list_elem_of_singleton in Hn. by rewrite Hn.
      - apply list_elem_of_fmap in Hn as (q & -> & _). done. }
    apply merge_left_keys in Hk2. apply key_lt_le.
    by eapply Forall_forall in Hm.
  - apply (StronglySorted_constant _ (m_key m)).
    intros k (n & -> & Hn)%list_elem_of_fmap.
    destruct (filter _ mapping) as [|p ps].
    + apply list_elem_of_singleton in Hn. by rewrite Hn.
    + apply list_elem_of_fmap in Hn as (q & -> & _). done.
Qed.

(** X10: for every input, the rows of the report are in ascending order
    of (campaign id, hour): a row never stands above a row with a lower
    id, or with its id and a lower hour; rows with the same key stand
    together. *)
Theorem report_sorted (revenue_data : list RevenueRecord)
    (spend : list SpendRecord) (out : list MetricsRow) :
  metrics_pipeline revenue_data spend = OK out →
  StronglySorted key_le (o_key <$> out).
Proof.
  intros H. apply metrics_pipeline_inv in H as (sd & exact & Hsd & He & ->).
  rewrite <- list_fmap_compose. change (o_key ∘ round_row) with o_key.
  rewrite (derive_keys _ _ He).
  apply merge_left_sorted, merged_data_sorted.
Qed.

Lemma report_sorted_witness :
  metrics_pipeline two_hours_revenue two_hours_spend = OK two_hours_report ∧
  StronglySorted key_le (o_key <$> two_hours_report).
Proof.
  assert (metrics_pipeline two_hours_revenue two_hours_spend
          = OK two_hours_report) as H by (vm_compute; reflexivity).
  split; [exact H|]. exact (report_sorted _ _ _ H).
Defined.

(** ** The names of the report, for every input *)

Lemma report_row_named revenue_data sd exact (o : MetricsRow) :
  derive (named_data revenue_data sd) = OK exact →
  o ∈ round_row <$> exact →
  ∃ n, n ∈ named_data revenue_data sd ∧
       o_key o = m_key (nr_row n) ∧
       o_campaign_name o = campaign_name n.
Proof.
  intros He (e & -> & Hin)%list_elem_of_fmap.
  apply derive_rows in He as [He _].
  apply list_elem_of_lookup in Hin as [i Hi].
  destruct (Forall2_lookup_r _ _ _ _ _ He Hi) as (n & Hn & Hk & Hname & _).
  exists n. split; [by eapply list_elem_of_lookup_2|done].
Qed.

Lemma merged_row_spend_source revenue_data spend sd (m : MergedRow) :
  spend_data spend = OK sd → m ∈ merged_data revenue_data sd →
  ∃ r x, r ∈ spend ∧ campid_of_name (ad_set_name r) = Some x ∧
         campid m = int64_of_float x.
Proof.
  intros Hsd Hm.
  apply elem_of_merge_inner in Hm as (l & c & _ & Hc & Hk & ->).
  apply elem_of_aggregate_spend in Hc as [Hc _].
  apply list_elem_of_fmap in Hc as (c' & Hk' & Hin).
  destruct (spend_cleaned_origin _ _ _ Hsd Hin)
    as (r & x & Hr & Hx & Hid & _).
  exists r, x. repeat split; try done. simpl.
  rewrite <- Hid. rewrite Hk' in Hk. by injection Hk.
Qed.

(** X11: every row of the report takes its name from a spend row whose
    name holds the campaign id of the row, and a row without a name has
    the id -2^63 of a number that does not fit; for every spend row whose
    name holds the id of a report row, the report has a row with that key
    and that name. *)
Theorem report_row_names (revenue_data : list RevenueRecord)
    (spend : list SpendRecord) (out : list MetricsRow) :
  metrics_pipeline revenue_data spend = OK out →
  Forall (λ o, match o_campaign_name o with
               | Some s => ∃ r, r ∈ spend ∧ ad_set_name r = s ∧
                                campid_of_name s = Some (o_campid o)
               | None => o_campid o = - 2 ^ 63
               end) out ∧
  (∀ o r, o ∈ out → r ∈ spend →
          campid_of_name (ad_set_name r) = Some (o_campid o) →
          ∃ o', o' ∈ out ∧ o_key o' = o_key o ∧
                o_campaign_name o' = Some (ad_set_name r)).
Proof.
  intros H. apply metrics_pipeline_inv in H as (sd & exact & Hsd & He & ->).
  destruct (report_names _ _ _ _ Hsd He) as [Hn1 Hn2].
  split; [|exact Hn2].
  apply Forall_forall. intros o Ho.
  destruct (o_campaign_name o) as [s|] eqn:Hname; [by apply Hn1|].
  destruct (report_row_named _ _ _ _ He Ho) as (n & Hn & Hk & Hnn).
  apply elem_of_merge_left in Hn as [Hm Hmap].
  rewrite <- Hnn, Hname in Hmap.
  destruct (merged_row_spend_source _ _ _ _ Hsd Hm)
    as (r & x & Hr & Hx & Hid).
  assert (o_campid o = campid (nr_row n)) as -> by by injection Hk.
  rewrite Hid. unfold int64_of_float.
  destruct (x <? 2 ^ 63) eqn:E; [|done]. exfalso.
  apply (Hmap (ad_set_name r)).
  apply (elem_of_campaign_name_mapping _ _ _ _ Hsd).
  exists r. repeat split; try done.
  rewrite Hx, Hid. unfold int64_of_float. by rewrite E.
Qed.

Lemma report_row_names_witness :
  metrics_pipeline two_hours_revenue two_hours_spend = OK two_hours_report ∧
  Forall (λ o, match o_campaign_name o with
               | Some s => ∃ r, r ∈ two_hours_spend ∧ ad_set_name r = s ∧
                                campid_of_name s = Some (o_campid o)
               | None => o_campid o = - 2 ^ 63
               end) two_hours_report.
Proof.
  assert (metrics_pipeline two_hours_revenue two_hours_spend
          = OK two_hours_report) as H by (vm_compute; reflexivity).
  split; [exact H|]. exact (proj1 (report_row_names _ _ _ H)).
Defined.

(** ** The report when every campaign id has one name *)

Lemma one_name_per_id_mapping spend sd :
  spend_data spend = OK sd → one_name_per_id spend →
  one_name_per_campaign sd.
Proof.
  intros Hsd Hone c s1 s2 H1 H2.
  apply (elem_of_campaign_name_mapping _ _ _ _ Hsd) in H1
    as (r1 & Hr1 & <- & Hc1).
  apply (elem_of_campaign_name_mapping _ _ _ _ Hsd) in H2
    as (r2 & Hr2 & <- & Hc2).
  apply Hone; [done|done|by rewrite Hc1|congruence].
Qed.

(** X12: when the spend rows that name the same campaign id carry the
    same ad-set name, no two rows of the report have the same campaign id
    and hour, and the rows are in strictly ascending order of (id,
    hour). *)
Theorem one_name_unique_sorted_keys (revenue_data : list RevenueRecord)
    (spend : list SpendRecord) (out : list MetricsRow) :
  one_name_per_id spend →
  metrics_pipeline revenue_data spend = OK out →
  NoDup (o_key <$> out) ∧ StronglySorted key_lt (o_key <$> out).
Proof.
  intros Hone H.
  apply metrics_pipeline_inv in H as (sd & exact & Hsd & He & ->).
  eapply one_name_report_keys; [|exact He].
  by eapply one_name_per_id_mapping.
Qed.

Lemma one_name_end_to_end_spend : one_name_per_id end_to_end_spend.
Proof.
  intros r1 r2 H1 H2 _ _. unfold end_to_end_spend in H1, H2.
  repeat (apply elem_of_cons in H1 as [->|H1]);
    repeat (apply elem_of_cons in H2 as [->|H2]);
    first [reflexivity | by apply elem_of_nil in H1
          | by apply elem_of_nil in H2].
Defined.

Lemma one_name_unique_sorted_keys_witness :
  one_name_per_id end_to_end_spend ∧
  metrics_pipeline end_to_end_revenue end_to_end_spend
  = OK end_to_end_report ∧
  NoDup (o_key <$> end_to_end_report) ∧
  StronglySorted key_lt (o_key <$> end_to_end_report).
Proof.
  assert (metrics_pipeline end_to_end_revenue end_to_end_spend
          = OK end_to_end_report) as H by (vm_compute; reflexivity).
  split; [exact one_name_end_to_end_spend|]. split; [exact H|].
  exact (one_name_unique_sorted_keys _ _ _ one_name_end_to_end_spend H).
Defined.

Lemma merged_row_sums revenue_data sd (m : MergedRow) :
  m ∈ merged_data revenue_data sd →
  estimated_earnings m = earnings_of revenue_data (m_key m) ∧
  total_clicks m = clicks_of revenue_data (m_key m).
Proof.
  intros Hm. apply elem_of_merge_inner in Hm as (l & c & Hl & Hc & Hk & ->).
  apply elem_of_aggregate_revenue in Hl as (_ & Hl1 & Hl2).
  apply elem_of_aggregate_spend in Hc as (Hc & _).
  unfold earnings_of, clicks_of. simpl. rewrite Hl1, Hl2.
  change (ar_campid l, ar_hour l) with (ar_key l).
  rewrite filter_revenue_filtered; [done|].
  rewrite <- Hk. by apply matching_campaigns_key.
Qed.

(** In a frame in ascending key order, a row that the differencing takes
    as it is has the lowest hour of its campaign. *)
Lemma sorted_no_previous_row (pre post : list NamedRow) (r : NamedRow) :
  StronglySorted key_lt ((m_key ∘ nr_row) <$> (pre ++ r :: post)) →
  previous_row pre r = None →
  ∀ q, q ∈ pre ++ r :: post →
       campid (nr_row q) = campid (nr_row r) →
       hour (nr_row r) ≤ hour (nr_row q).
Proof.
  intros Hs Hp q Hq Hc. unfold previous_row in Hp.
  apply last_None in Hp.
  rewrite fmap_app, fmap_cons in Hs.
  apply StronglySorted_app in Hs as (_ & _ & Hs).
  apply StronglySorted_inv in Hs as [_ Hr].
  apply elem_of_app in Hq as [Hq|Hq].
  { exfalso. by apply (filter_nil_not_elem_of _ _ q Hp). }
  apply elem_of_cons in Hq as [->|Hq]; [done|].
  eapply Forall_forall in Hr;
    [|by apply (list_elem_of_fmap_2 (m_key ∘ nr_row))].
  destruct Hr as [Hr|[_ Hr]]; simpl in *; lia.
Qed.

(** X13: when the spend rows that name the same campaign id carry the
    same ad-set name, then before the rounding of line 87 the
    hourly_revenue of a row is the aggregated earnings of its key when no
    row of its campaign has a lower hour, and otherwise the aggregated
    earnings of its key minus those of the row of its campaign at the next
    lower hour; hourly_clicks is the same on the aggregated clicks.  The
    report shows these rows with 2 decimal places. *)
Theorem one_name_hourly_revenue (revenue_data : list RevenueRecord)
    (spend : list SpendRecord) (out : list MetricsRow) :
  one_name_per_id spend →
  metrics_pipeline revenue_data spend = OK out →
  ∃ sd exact,
    spend_data spend = OK sd ∧
    derive (named_data revenue_data sd) = OK exact ∧
    Forall2 shown_as exact out ∧
    Forall (λ e,
      ((∀ q, q ∈ exact → o_campid q = o_campid e → o_hour e ≤ o_hour q) ∧
       hourly_revenue e = earnings_of revenue_data (o_key e) ∧
       hourly_clicks e = clicks_of revenue_data (o_key e)) ∨
      (∃ p, p ∈ exact ∧ o_campid p = o_campid e ∧ o_hour p < o_hour e ∧
            (∀ q, q ∈ exact → o_campid q = o_campid e →
                  o_hour q < o_hour e → o_hour q ≤ o_hour p) ∧
            hourly_revenue e
            = (earnings_of revenue_data (o_key e)
               - earnings_of revenue_data (o_key p))%Q ∧
            hourly_clicks e
            = (clicks_of revenue_data (o_key e)
               - clicks_of revenue_data (o_key p))%Q)) exact.
Proof.
  intros Hone H.
  apply metrics_pipeline_inv in H as (sd & exact & Hsd & He & ->).
  exists sd, exact. split; [done|]. split; [done|].
  split; [apply round_rows_shown_as|].
  set (named := named_data revenue_data sd) in *.
  assert (nr_row <$> named = merged_data revenue_data sd) as Hrows.
  { apply merge_left_one_name; [apply NoDup_unique_from|].
    by eapply one_name_per_id_mapping. }
  assert (StronglySorted key_lt ((m_key ∘ nr_row) <$> named)) as Hsorted.
  { rewrite list_fmap_compose, Hrows. apply merged_data_sorted. }
  assert (∀ n, n ∈ named →
            estimated_earnings (nr_row n)
            = earnings_of revenue_data (m_key (nr_row n)) ∧
            total_clicks (nr_row n)
            = clicks_of revenue_data (m_key (nr_row n))) as Hsums.
  { intros n Hn. apply (merged_row_sums _ sd). rewrite <- Hrows.
    by apply list_elem_of_fmap_2. }
  destruct (derive_rows _ _ He) as (Hf & Hrev & Hclk).
  assert (∀ q, q ∈ exact →
            ∃ n, n ∈ named ∧ o_key q = m_key (nr_row n)) as Hback.
  { intros q Hq. apply list_elem_of_lookup in Hq as [j Hj].
    destruct (Forall2_lookup_r _ _ _ _ _ Hf Hj) as (n & Hn & Hk & _).
    exists n. split; [by eapply list_elem_of_lookup_2|done]. }
  assert (∀ n, n ∈ named →
            ∃ q, q ∈ exact ∧ o_key q = m_key (nr_row n)) as Hforth.
  { intros n Hn. apply list_elem_of_lookup in Hn as [j Hj].
    destruct (Forall2_lookup_l _ _ _ _ _ Hf Hj) as (e & Hej & Hk & _).
    exists e. split; [by eapply list_elem_of_lookup_2|done]. }
  apply Forall_forall. intros e Hin.
  apply list_elem_of_lookup in Hin as [i Hi].
  destruct (Forall2_lookup_r _ _ _ _ _ Hf Hi) as (n & Hn & Hk & _).
  pose proof (take_drop_middle _ _ _ Hn) as Hsplit.
  set (pre := take i named) in *. set (post := drop (S i) named) in *.
  assert (length pre = i) as Hlen.
  { unfold pre. rewrite length_take. apply lookup_lt_Some in Hn. lia. }
  pose proof (diff_fillna_lookup (estimated_earnings ∘ nr_row) pre n post)
    as H1.
  pose proof (diff_fillna_lookup (total_clicks ∘ nr_row) pre n post) as H2.
  fold (hourly_revenue_col (pre ++ n :: post)) in H1.
  fold (hourly_clicks_col (pre ++ n :: post)) in H2.
  rewrite Hsplit, Hlen, <- Hrev, list_lookup_fmap, Hi in H1.
  rewrite Hsplit, Hlen, <- Hclk, list_lookup_fmap, Hi in H2.
  simpl in H1, H2. injection H1 as H1. injection H2 as H2.
  rewrite <- Hsplit in Hsorted.
  assert (n ∈ named) as Hnin by by eapply list_elem_of_lookup_2.
  destruct (Hsums n Hnin) as [Hen Hcn].
  assert (o_campid e = campid (nr_row n) ∧ o_hour e = hour (nr_row n))
    as [Hkc Hkh] by (by injection Hk).
  destruct (previous_row pre n) as [p|] eqn:Hprev.
  - right.
    destruct (sorted_previous_row _ _ _ _ Hsorted Hprev) as (Hpc & Hph & Hmax).
    assert (p ∈ named) as Hpin.
    { rewrite <- Hsplit. apply elem_of_app. left.
      unfold previous_row in Hprev.
      by apply last_Some_elem_of, list_elem_of_filter in Hprev as [_ ?]. }
    destruct (Hforth p Hpin) as (op & Hop & Hopk).
    destruct (Hsums p Hpin) as [Hep Hcp].
    assert (o_campid op = campid (nr_row p) ∧ o_hour op = hour (nr_row p))
      as [Hpkc Hpkh] by (by injection Hopk).
    exists op. split; [done|].
    split; [congruence|]. split; [lia|]. split.
    + intros q Hq Hqc Hqh. destruct (Hback q Hq) as (nq & Hnq & Hqk).
      assert (o_campid q = campid (nr_row nq) ∧ o_hour q = hour (nr_row nq))
        as [Hqkc Hqkh] by (by injection Hqk).
      rewrite Hpkh, Hqkh. apply Hmax; [by rewrite Hsplit|congruence|lia].
    + rewrite Hk, Hopk, H1, H2, Hen, Hcn, Hep, Hcp. done.
  - left. split.
    + intros q Hq Hqc. destruct (Hback q Hq) as (nq & Hnq & Hqk).
      assert (o_campid q = campid (nr_row nq) ∧ o_hour q = hour (nr_row nq))
        as [Hqkc Hqkh] by (by injection Hqk).
      rewrite Hkh, Hqkh.
      apply (sorted_no_previous_row _ _ _ Hsorted Hprev);
        [by rewrite Hsplit|congruence].
    + rewrite Hk, H1, H2, Hen, Hcn. done.
Qed.

Lemma one_name_hourly_revenue_witness :
  one_name_per_id end_to_end_spend ∧
  metrics_pipeline end_to_end_revenue end_to_end_spend
  = OK end_to_end_report ∧
  ∃ sd exact,
    spend_data end_to_end_spend = OK sd ∧
    derive (named_data end_to_end_revenue sd) = OK exact ∧
    Forall2 shown_as exact end_to_end_report ∧
    Forall (λ e,
      ((∀ q, q ∈ exact → o_campid q = o_campid e → o_hour e ≤ o_hour q) ∧
       hourly_revenue e = earnings_of end_to_end_revenue (o_key e) ∧
       hourly_clicks e = clicks_of end_to_end_revenue (o_key e)) ∨
      (∃ p, p ∈ exact ∧ o_campid p = o_campid e ∧ o_hour p < o_hour e ∧
            (∀ q, q ∈ exact → o_campid q = o_campid e →
                  o_hour q < o_hour e → o_hour q ≤ o_hour p) ∧
            hourly_revenue e
            = (earnings_of end_to_end_revenue (o_key e)
               - earnings_of end_to_end_revenue (o_key p))%Q ∧
            hourly_clicks e
            = (clicks_of end_to_end_revenue (o_key e)
               - clicks_of end_to_end_revenue (o_key p))%Q)) exact.
Proof.
  assert (metrics_pipeline end_to_end_revenue end_to_end_spend
          = OK end_to_end_report) as H by (vm_compute; reflexivity).
  split; [exact one_name_end_to_end_spend|]. split; [exact H|].
  exact (one_name_hourly_revenue _ _ _ one_name_end_to_end_spend H).
Defined.

(** ** The label and the profit shown (lines 76-87) *)

(** X15: in every report the label and the profit shown never
    contradict each other: a row labelled 'Profit' shows a profit of 0 or
    more, a row labelled 'Loss' a profit of 0 or less, a row labelled
    'Break-Even' a profit of exactly 0, and there is no other label. *)
Theorem label_agrees_with_profit_shown (revenue_data : list RevenueRecord)
    (spend : list SpendRecord) (out : list MetricsRow) :
  metrics_pipeline revenue_data spend = OK out →
  Forall (λ o,
    (profit_loss o = "Profit" ∧ (0 <= profit o)%Q) ∨
    (profit_loss o = "Loss" ∧ (profit o <= 0)%Q) ∨
    (profit_loss o = "Break-Even" ∧ profit o = 0%Q)) out.
Proof.
  intros H. apply metrics_pipeline_inv in H as (sd & exact & Hsd & He & ->).
  apply derive_equations in He. apply Forall_fmap.
  eapply Forall_impl; [exact He|]. intros e Heq. simpl.
  destruct Heq as (_ & _ & _ & _ & _ & _ & _ & ->). unfold classify.
  destruct (gt0 (profit e)) eqn:E1.
  { left. split; [done|]. apply round2_nonneg, Qlt_le_weak.
    by apply gt0_spec. }
  destruct (lt0 (profit e)) eqn:E2.
  { right; left. split; [done|]. apply round2_nonpos, Qlt_le_weak.
    by apply lt0_spec. }
  right; right. split; [done|]. apply round2_zero.
  apply Qle_antisym; apply Qnot_lt_le; intros Hlt.
  - apply gt0_spec in Hlt. congruence.
  - apply lt0_spec in Hlt. congruence.
Qed.

Lemma label_agrees_with_profit_shown_witness :
  metrics_pipeline two_hours_revenue two_hours_spend = OK two_hours_report ∧
  Forall (λ o,
    (profit_loss o = "Profit" ∧ (0 <= profit o)%Q) ∨
    (profit_loss o = "Loss" ∧ (profit o <= 0)%Q) ∨
    (profit_loss o = "Break-Even" ∧ profit o = 0%Q)) two_hours_report.
Proof.
  assert (metrics_pipeline two_hours_revenue two_hours_spend
          = OK two_hours_report) as H by (vm_compute; reflexivity).
  split; [exact H|]. exact (label_agrees_with_profit_shown _ _ _ H).
Defined.

(** ** The workbook (lines 96-126) *)

Lemma write_row_lookup (row col : nat) (vs : list CellValue)
    (m : gmap (nat * nat) Cell) (r c : nat) :
  write_row row col vs m !! (r, c)
  = if decide (r = row ∧ (col ≤ c < col + length vs)%nat)
    then new_cell <$> vs !! (c - col)%nat
    else m !! (r, c).
Proof.
  revert col m. induction vs as [|v vs IH]; intros col m; simpl.
  - by rewrite decide_False by lia.
  - rewrite IH.
    destruct (decide (r = row ∧ (S col ≤ c < S col + length vs)%nat))
      as [[-> H]|H].
    + rewrite decide_True by lia.
      by replace (c - col)%nat with (S (c - S col)) by lia.
    + destruct (decide ((r, c) = (row, col))) as [[= -> ->]|Hne].
      * rewrite lookup_insert_eq, decide_True by lia.
        by rewrite Nat.sub_diag.
      * rewrite lookup_insert_ne by done.
        rewrite decide_False; [done|]. intros [-> ?].
        destruct (decide (c = col)) as [->|]; [done|]. apply H. lia.
Qed.

Lemma append_lookup (vs : list CellValue) (ws : Worksheet) (r c : nat) :
  cells (append vs ws) !! (r, c)
  = if decide (r = S (current_row ws) ∧ (1 ≤ c ≤ length vs)%nat)
    then new_cell <$> vs !! (c - 1)%nat
    else cells ws !! (r, c).
Proof.
  unfold append. simpl. rewrite write_row_lookup.
  destruct (decide (r = S (current_row ws) ∧ (1 ≤ c ≤ length vs)%nat));
    [rewrite decide_True by lia|rewrite decide_False by lia]; done.
Qed.

Lemma append_rows_current_row (rows : list (list CellValue))
    (ws : Worksheet) :
  current_row (foldl (λ ws row, append row ws) ws rows)
  = (current_row ws + length rows)%nat ∧
  title (foldl (λ ws row, append row ws) ws rows) = title ws.
Proof.
  revert ws. induction rows as [|row rows IH]; intros ws; simpl.
  - split; [lia|done].
  - destruct (IH (append row ws)) as [-> ->]. simpl. split; [lia|done].
Qed.

(** The rows appended below a sheet: row [i] of them is row
    [current_row + 1 + i] of the sheet, from column 1. *)
Lemma append_rows_lookup (rows : list (list CellValue)) (ws : Worksheet)
    (r c : nat) :
  cells (foldl (λ ws row, append row ws) ws rows) !! (r, c)
  = match rows !! (r - S (current_row ws))%nat with
    | Some row =>
        if decide ((current_row ws < r)%nat ∧ (1 ≤ c ≤ length row)%nat)
        then new_cell <$> row !! (c - 1)%nat
        else cells ws !! (r, c)
    | None => cells ws !! (r, c)
    end.
Proof.
  revert ws. induction rows as [|row rows IH]; intros ws; [done|].
  simpl foldl. rewrite IH, append_lookup.
  change (current_row (append row ws)) with (S (current_row ws)).
  destruct (decide (r ≤ current_row ws)%nat).
  - replace (r - S (S (current_row ws)))%nat with 0%nat by lia.
    replace (r - S (current_row ws))%nat with 0%nat by lia.
    destruct rows; simpl; repeat case_decide; try done; lia.
  - destruct (decide (r = S (current_row ws))) as [->|].
    + rewrite Nat.sub_diag.
      replace (S (current_row ws) - S (S (current_row ws)))%nat
        with 0%nat by lia.
      destruct rows; simpl; repeat case_decide; try done; lia.
    + replace (r - S (current_row ws))%nat
        with (S (r - S (S (current_row ws)))) by lia.
      simpl. case_match; repeat case_decide; try done; lia.
Qed.

(** A loop that sets one cell per step, each step another cell. *)
Section CellLoop.
Variable pos : nat → nat * nat.
Variable g : Cell → Cell.
Variable f : Worksheet → nat → Worksheet.
Hypothesis f_cells :
  ∀ ws i, cells (f ws i)
          = <[pos i := g (default (new_cell VNone) (cells ws !! pos i))]>
              (cells ws).
Hypothesis pos_inj : ∀ i j, pos i = pos j → i = j.

Lemma cell_loop_other (l : list nat) (ws : Worksheet) (k : nat * nat) :
  (∀ i, i ∈ l → pos i ≠ k) → cells (foldl f ws l) !! k = cells ws !! k.
Proof.
  revert ws. induction l as [|a l IH]; intros ws Hl; simpl; [done|].
  rewrite IH by (intros i Hi; by apply Hl, list_elem_of_further).
  rewrite f_cells, lookup_insert_ne; [done|]. apply Hl, list_elem_of_here.
Qed.

Lemma cell_loop_at (l : list nat) (ws : Worksheet) (i : nat) :
  NoDup l → i ∈ l →
  cells (foldl f ws l) !! pos i
  = Some (g (default (new_cell VNone) (cells ws !! pos i))).
Proof.
  revert ws. induction l as [|a l IH]; intros ws Hnd Hi; simpl.
  { by apply elem_of_nil in Hi. }
  apply NoDup_cons in Hnd as [Ha Hnd].
  destruct (decide (i = a)) as [->|Hia].
  - rewrite cell_loop_other.
    + by rewrite f_cells, lookup_insert_eq.
    + intros j Hj E. apply pos_inj in E. by subst j.
  - apply elem_of_cons in Hi as [->|Hi]; [done|].
    rewrite (IH _ Hnd Hi), f_cells, lookup_insert_ne; [done|].
    intros E. by apply pos_inj in E.
Qed.
End CellLoop.

Lemma style_header_current_row (l : list nat) (ws : Worksheet) :
  (1 ≤ current_row ws)%nat →
  current_row (foldl style_header ws l) = current_row ws ∧
  title (foldl style_header ws l) = title ws.
Proof.
  revert ws. induction l as [|a l IH]; intros ws Hws; simpl; [done|].
  destruct (IH (style_header ws a)) as [-> ->]; simpl; [lia|].
  split; [lia|done].
Qed.

Lemma color_row_title (col : nat) (l : list nat) (ws : Worksheet) :
  title (foldl (color_row col) ws l) = title ws.
Proof.
  revert ws. induction l as [|a l IH]; intros ws; simpl; [done|].
  by rewrite IH.
Qed.

(** [max_row] is the last row that has a cell. *)
Lemma max_row_last (ws : Worksheet) (R : nat) :
  (∀ r c, is_Some (cells ws !! (r, c)) → (r ≤ R)%nat) →
  (∃ c, is_Some (cells ws !! (R, c))) →
  max_row ws = R.
Proof.
  intros Hle [c [x Hx]]. unfold max_row.
  assert (R ∈ (λ kc : nat * nat * Cell, kc.1.1) <$> map_to_list (cells ws))
    as HR.
  { apply list_elem_of_fmap. exists ((R, c), x). split; [done|].
    by apply elem_of_map_to_list. }
  assert (∀ r, r ∈ (λ kc : nat * nat * Cell, kc.1.1)
                     <$> map_to_list (cells ws) → (r ≤ R)%nat) as Hall.
  { intros r ([[r' c'] x'] & -> & Hin)%list_elem_of_fmap.
    apply elem_of_map_to_list in Hin. apply (Hle r' c'). by exists x'. }
  destruct ((λ kc : nat * nat * Cell, kc.1.1) <$> map_to_list (cells ws))
    as [|r0 rows] eqn:E.
  { by apply elem_of_nil in HR. }
  apply Nat.le_antisymm.
  - apply Hall. by apply max_list_elem_of.
  - by apply max_list_elem_of_le.
Qed.

Lemma row_values_length (o : MetricsRow) : length (row_values o) = 14%nat.
Proof. reflexivity. Qed.

Lemma columns_lookup_ge (j : nat) : (14 ≤ j)%nat → columns !! j = None.
Proof. intros H. by apply lookup_ge_None_2. Qed.

Lemma columns_lookup_lt (j : nat) : (j < 14)%nat → is_Some (columns !! j).
Proof. intros H. by apply lookup_lt_is_Some_2. Qed.

(** Lines 102-111: the sheet once the headers are written and styled. *)
Lemma header_row_cells :
  let ws := foldl style_header
              (append (VString <$> (upper <$> columns))
                 (set_title "Campaign Metrics" active))
              (seq 1 (length (upper <$> columns))) in
  current_row ws = 1%nat ∧ title ws = "Campaign Metrics"%string ∧
  ∀ r c, cells ws !! (r, c) = sheet_cell [] r c.
Proof.
  set (ws1 := append _ (set_title _ active)).
  change (length (upper <$> columns)) with 14%nat.
  assert (∀ r c, cells ws1 !! (r, c)
                 = match r, c with
                   | 1%nat, S j => new_cell ∘ VString ∘ upper <$> columns !! j
                   | _, _ => None
                   end) as H1.
  { intros r c. unfold ws1. rewrite append_lookup.
    change (length (VString <$> (upper <$> columns))) with 14%nat.
    change (cells (set_title "Campaign Metrics" active)) with
      (∅ : gmap (nat * nat) Cell).
    change (current_row (set_title "Campaign Metrics" active)) with 0%nat.
    case_decide as H.
    - destruct H as [-> H]. destruct c as [|j]; [lia|].
      change (S j - 1)%nat with (j - 0)%nat.
      rewrite Nat.sub_0_r, !list_lookup_fmap.
      by destruct (columns !! j).
    - rewrite lookup_empty. destruct r as [|[|r]]; try done.
      destruct c as [|j]; [done|].
      rewrite columns_lookup_ge; [done|lia]. }
  intros ws.
  destruct (style_header_current_row (seq 1 14) ws1) as [Hc Ht];
    [simpl; lia|].
  split; [exact Hc|]. split; [exact Ht|]. intros r c. unfold ws.
  set (g := λ cl : Cell,
         {| value := value cl; fill := Some header_fill;
            font := Some header_font;
            alignment := Some {| horizontal := "center";
                                 vertical := "center" |} |}).
  destruct (decide (r = 1%nat ∧ (1 ≤ c ≤ 14)%nat)) as [[-> Hc1]|Hn].
  - rewrite (cell_loop_at (λ i, (1%nat, i)) g style_header).
    + rewrite H1. destruct c as [|j]; [lia|]. simpl.
      destruct (columns_lookup_lt j) as [h ->]; [lia|]. reflexivity.
    + done.
    + by intros i j [= ->].
    + apply NoDup_seq.
    + apply elem_of_seq. lia.
  - rewrite (cell_loop_other (λ i, (1%nat, i)) g style_header).
    + rewrite H1. destruct r as [|[|r]], c as [|j]; try done. simpl.
      rewrite columns_lookup_ge; [done|lia].
    + done.
    + intros i Hi [= <- <-]. apply elem_of_seq in Hi. lia.
Qed.

(** Lines 114-115: the sheet once the rows of the report are appended. *)
Lemma data_rows_cells (report : list MetricsRow) (ws : Worksheet) :
  current_row ws = 1%nat →
  (∀ r c, cells ws !! (r, c) = sheet_cell [] r c) →
  ∀ r c,
    cells (foldl (λ ws row, append row ws) ws (dataframe_to_rows report))
      !! (r, c)
    = match r, c with
      | 1%nat, S j => header_cell ∘ upper <$> columns !! j
      | S (S i), S j =>
          match report !! i with
          | Some o => new_cell <$> row_values o !! j
          | None => None
          end
      | _, _ => None
      end.
Proof.
  intros Hcur Hws r c. rewrite append_rows_lookup, Hcur, Hws.
  unfold dataframe_to_rows. rewrite list_lookup_fmap.
  destruct r as [|[|i]].
  - simpl. destruct (report !! 0%nat); simpl; repeat case_decide;
      try done; lia.
  - simpl. destruct (report !! 0%nat); simpl; repeat case_decide;
      try done; lia.
  - change (S (S i) - 2)%nat with (i - 0)%nat. rewrite Nat.sub_0_r.
    destruct (report !! i) as [o|]; simpl; [|by destruct c].
    case_decide as H.
    + destruct c as [|j]; [lia|].
      change (S j - 1)%nat with (j - 0)%nat. by rewrite Nat.sub_0_r.
    + destruct c as [|j]; [done|].
      rewrite (lookup_ge_None_2 (row_values o)); [done|].
      rewrite row_values_length. lia.
Qed.

Lemma sheet_rows_extent (report : list MetricsRow)
    (m : gmap (nat * nat) Cell) :
  (∀ r c, is_Some (m !! (r, c)) ↔
          (1 ≤ r ≤ S (length report))%nat ∧ (1 ≤ c ≤ 14)%nat) →
  max_row {| title := ""; cells := m; current_row := 0 |}
  = S (length report).
Proof.
  intros H. apply max_row_last; simpl.
  - intros r c Hs. apply H in Hs. lia.
  - exists 1%nat. apply H. lia.
Qed.

Lemma max_row_cells (ws ws' : Worksheet) :
  cells ws = cells ws' → max_row ws = max_row ws'.
Proof. unfold max_row. by intros ->. Qed.

Lemma sheet_cell_is_Some (report : list MetricsRow) (r c : nat) :
  is_Some (sheet_cell report r c) ↔
  (1 ≤ r ≤ S (length report))%nat ∧ (1 ≤ c ≤ 14)%nat.
Proof.
  destruct r as [|[|i]]; simpl.
  - split; [by intros [? ?]|lia].
  - destruct c as [|j]; [split; [by intros [? ?]|lia]|].
    rewrite fmap_is_Some. split.
    + intros Hs. apply lookup_lt_is_Some_1 in Hs.
      change (length columns) with 14%nat in Hs. lia.
    + intros Hj. apply columns_lookup_lt. lia.
  - destruct c as [|j]; [split; [by intros [? ?]|lia]|].
    destruct (report !! i) as [o|] eqn:E.
    + apply lookup_lt_Some in E. rewrite fmap_is_Some. split.
      * intros Hs. apply lookup_lt_is_Some_1 in Hs.
        rewrite row_values_length in Hs. lia.
      * intros Hj. apply lookup_lt_is_Some_2.
        rewrite row_values_length. lia.
    + apply lookup_ge_None_1 in E. split; [by intros [? ?]|lia].
Qed.

(** Lines 97-126: the sheet of a report, cell by cell. *)
Lemma campaign_metrics_sheet_cells (report : list MetricsRow) :
  ∃ ws, campaign_metrics_sheet report = OK ws ∧
        title ws = "Campaign Metrics"%string ∧
        ∀ r c, cells ws !! (r, c) = sheet_cell report r c.
Proof.
  unfold campaign_metrics_sheet.
  destruct header_row_cells as (Hcur & Ht & Hcells).
  set (ws2 := foldl style_header _ _) in *.
  pose proof (data_rows_cells report ws2 Hcur Hcells) as H3.
  destruct (append_rows_current_row (dataframe_to_rows report) ws2)
    as [_ Ht3].
  set (ws3 := foldl _ ws2 (dataframe_to_rows report)) in *.
  assert (max_row ws3 = S (length report)) as Hmax.
  { rewrite (max_row_cells ws3
               {| title := ""; cells := cells ws3; current_row := 0 |})
      by done.
    apply sheet_rows_extent. intros r c. rewrite H3.
    rewrite <- sheet_cell_is_Some.
    destruct r as [|[|i]]; try done. destruct c as [|j]; [done|]. simpl.
    destruct (report !! i); [|done]. by rewrite !fmap_is_Some. }
  change (index "PROFIT_LOSS" (upper <$> columns)) with (OK 13%nat).
  eexists. split; [reflexivity|]. rewrite Hmax.
  replace (S (length report) - 1)%nat with (length report) by lia.
  change (13 + 1)%nat with 14%nat. split.
  { by rewrite color_row_title, Ht3. }
  intros r c.
  destruct (decide (c = 14%nat ∧ (2 ≤ r < 2 + length report)%nat))
    as [[-> Hr]|Hn].
  - rewrite (cell_loop_at (λ i, (i, 14%nat)) color_code (color_row 14)).
    + rewrite H3. destruct r as [|[|i]]; [lia..|]. simpl.
      destruct (lookup_lt_is_Some_2 report i) as [o ->]; [lia|]. done.
    + done.
    + by intros i j [= ->].
    + apply NoDup_seq.
    + apply elem_of_seq. lia.
  - rewrite (cell_loop_other (λ i, (i, 14%nat)) color_code (color_row 14)).
    + rewrite H3. destruct r as [|[|i]]; try done.
      destruct c as [|j]; [done|]. simpl.
      destruct (report !! i) as [o|] eqn:E; [|done].
      apply lookup_lt_Some in E.
      destruct (row_values o !! j); [|done]. simpl.
      rewrite decide_False; [done|]. intros ->. apply Hn. lia.
    + done.
    + intros i Hi [= <- <-]. apply elem_of_seq in Hi. lia.
Qed.

(** X16: the workbook part raises nothing ("PROFIT_LOSS" is always among
    the headers, so [headers.index] finds it), the sheet is titled
    "Campaign Metrics", its last row is the number of report rows plus one
    for the headers, and its cells are exactly those of rows 1 to that
    last row and columns 1 to 14: the colour-coding loop of lines 119-126
    makes no cell beyond the data. *)
Theorem sheet_extent (report : list MetricsRow) :
  ∃ ws, campaign_metrics_sheet report = OK ws ∧
        title ws = "Campaign Metrics"%string ∧
        max_row ws = S (length report) ∧
        ∀ r c, is_Some (cells ws !! (r, c)) ↔
               (1 ≤ r ≤ S (length report))%nat ∧ (1 ≤ c ≤ 14)%nat.
Proof.
  destruct (campaign_metrics_sheet_cells report) as (ws & Hws & Ht & Hc).
  exists ws. split; [done|]. split; [done|].
  assert (∀ r c, is_Some (cells ws !! (r, c)) ↔
                 (1 ≤ r ≤ S (length report))%nat ∧ (1 ≤ c ≤ 14)%nat) as He.
  { intros r c. rewrite Hc. apply sheet_cell_is_Some. }
  split; [|exact He].
  rewrite (max_row_cells ws
             {| title := ""; cells := cells ws; current_row := 0 |}) by done.
  by apply sheet_rows_extent.
Qed.

(** X17: row 1 of the sheet holds the column names of the report in
    upper case, in the order of line 90, each on a yellow solid fill
    (FFFF00), in bold and centred both ways; the colour coding of line 119
    onwards starts at row 2 and leaves the header of the profit_loss
    column as it is. *)
Theorem sheet_header_cells (report : list MetricsRow) (c : nat)
    (h : string) :
  columns !! c = Some h →
  ∃ ws, campaign_metrics_sheet report = OK ws ∧
        cells ws !! (1%nat, S c) = Some (header_cell (upper h)).
Proof.
  intros Hh.
  destruct (campaign_metrics_sheet_cells report) as (ws & Hws & _ & Hc).
  exists ws. split; [done|]. rewrite Hc. simpl. by rewrite Hh.
Qed.

Lemma sheet_header_cells_witness :
  columns !! 13%nat = Some "profit_loss"%string ∧
  ∃ ws, campaign_metrics_sheet end_to_end_report = OK ws ∧
        cells ws !! (1%nat, 14%nat) = Some (header_cell "PROFIT_LOSS").
Proof.
  split; [reflexivity|].
  apply (sheet_header_cells end_to_end_report 13 "profit_loss").
  reflexivity.
Defined.

(** X18: row [i] of the report is row [i + 2] of the sheet: its value in
    column [c] of the frame is in column [c + 1] of the sheet, and outside
    the profit_loss column the cell has the default style (no fill, no
    font, no alignment). *)
Theorem sheet_data_cells (report : list MetricsRow) (i : nat)
    (o : MetricsRow) (c : nat) (v : CellValue) :
  report !! i = Some o → row_values o !! c = Some v → c ≠ 13%nat →
  ∃ ws, campaign_metrics_sheet report = OK ws ∧
        cells ws !! (S (S i), S c) = Some (new_cell v).
Proof.
  intros Ho Hv Hc13.
  destruct (campaign_metrics_sheet_cells report) as (ws & Hws & _ & Hc).
  exists ws. split; [done|]. rewrite Hc. simpl. rewrite Ho, Hv. simpl.
  by rewrite decide_False.
Qed.

Lemma sheet_data_cells_witness :
  ∃ ws, campaign_metrics_sheet end_to_end_report = OK ws ∧
        cells ws !! (3%nat, 3%nat) = Some (new_cell (VNumber (inject_Z 11))).
Proof.
  eapply (sheet_data_cells end_to_end_report 1 _ 2);
    [reflexivity|reflexivity|lia].
Defined.

(** X19: the profit_loss cell of report row [i], in column 14 of sheet
    row [i + 2], holds the label of the row, on a solid fill DFFFD6 when
    the label is 'Profit', FFD6D6 when it is 'Loss', FFFFE0 when it is
    'Break-Even' and no fill for any other value; font and alignment are
    the default. *)
Theorem sheet_profit_loss_cells (report : list MetricsRow) (i : nat)
    (o : MetricsRow) :
  report !! i = Some o →
  ∃ ws cl, campaign_metrics_sheet report = OK ws ∧
           cells ws !! (S (S i), 14%nat) = Some cl ∧
           value cl = VString (profit_loss o) ∧
           fill cl = label_fill (profit_loss o) ∧
           font cl = None ∧ alignment cl = None.
Proof.
  intros Ho.
  destruct (campaign_metrics_sheet_cells report) as (ws & Hws & _ & Hc).
  exists ws, (color_code (new_cell (VString (profit_loss o)))).
  split; [done|]. split.
  { rewrite Hc. simpl. by rewrite Ho. }
  unfold color_code, label_fill. simpl.
  destruct (String.eqb (profit_loss o) "Profit"); [done|].
  destruct (String.eqb (profit_loss o) "Loss"); [done|].
  by destruct (String.eqb (profit_loss o) "Break-Even").
Qed.

Lemma sheet_profit_loss_cells_witness :
  ∃ ws cl, campaign_metrics_sheet two_hours_report = OK ws ∧
           cells ws !! (3%nat, 14%nat) = Some cl ∧
           value cl = VString "Loss" ∧
           fill cl = Some (solid "FFD6D6") ∧
           font cl = None ∧ alignment cl = None.
Proof.
  exact (sheet_profit_loss_cells two_hours_report 1 _ eq_refl).
Defined.

Lemma report_label_cases revenue_data spend out (o : MetricsRow) :
  metrics_pipeline revenue_data spend = OK out → o ∈ out →
  (profit_loss o = "Profit"%string ∧ (0 <= profit o)%Q) ∨
  (profit_loss o = "Loss"%string ∧ (profit o <= 0)%Q) ∨
  (profit_loss o = "Break-Even"%string ∧ profit o = 0%Q).
Proof.
  intros H Ho.
  apply metrics_pipeline_inv in H as (sd & exact & Hsd & He & ->).
  apply derive_equations in He.
  apply list_elem_of_fmap in Ho as (e & -> & Hin).
  rewrite Forall_forall in He. specialize (He e Hin). simpl.
  destruct He as (_ & _ & _ & _ & _ & _ & _ & ->). unfold classify.
  destruct (gt0 (profit e)) eqn:E1.
  { left. split; [done|]. apply round2_nonneg, Qlt_le_weak.
    by apply gt0_spec. }
  destruct (lt0 (profit e)) eqn:E2.
  { right; left. split; [done|]. apply round2_nonpos, Qlt_le_weak.
    by apply lt0_spec. }
  right; right. split; [done|]. apply round2_zero.
  apply Qle_antisym; apply Qnot_lt_le; intros Hlt.
  - apply gt0_spec in Hlt. congruence.
  - apply lt0_spec in Hlt. congruence.
Qed.

(** X20: in the sheet of a report of the pipeline every data row is
    colour-coded, and the colour does not contradict the profit shown in
    the row: green (DFFFD6) only beside a profit of 0 or more, red
    (FFD6D6) only beside a profit of 0 or less, yellow (FFFFE0) only
    beside a profit of exactly 0. *)
Theorem report_rows_are_coloured (revenue_data : list RevenueRecord)
    (spend : list SpendRecord) (out : list MetricsRow) (i : nat)
    (o : MetricsRow) :
  metrics_pipeline revenue_data spend = OK out → out !! i = Some o →
  ∃ ws cl, campaign_metrics_sheet out = OK ws ∧
           cells ws !! (S (S i), 14%nat) = Some cl ∧
           ((fill cl = Some (solid "DFFFD6") ∧ (0 <= profit o)%Q) ∨
            (fill cl = Some (solid "FFD6D6") ∧ (profit o <= 0)%Q) ∨
            (fill cl = Some (solid "FFFFE0") ∧ profit o = 0%Q)).
Proof.
  intros H Ho.
  destruct (campaign_metrics_sheet_cells out) as (ws & Hws & _ & Hc).
  exists ws, (color_code (new_cell (VString (profit_loss o)))).
  split; [done|]. split.
  { rewrite Hc. simpl. by rewrite Ho. }
  destruct (report_label_cases _ _ _ o H) as [[-> ?]|[[-> ?]|[-> ?]]].
  - by eapply list_elem_of_lookup_2.
  - by left.
  - right; by left.
  - right; by right.
Qed.

Lemma report_rows_are_coloured_witness :
  metrics_pipeline two_hours_revenue two_hours_spend = OK two_hours_report ∧
  ∃ ws cl, campaign_metrics_sheet two_hours_report = OK ws ∧
           cells ws !! (3%nat, 14%nat) = Some cl ∧
           ((fill cl = Some (solid "DFFFD6") ∧ (0 <= -50)%Q) ∨
            (fill cl = Some (solid "FFD6D6") ∧ (-50 <= 0)%Q) ∨
            (fill cl = Some (solid "FFFFE0") ∧ (-50)%Q = 0%Q)).
Proof.
  assert (metrics_pipeline two_hours_revenue two_hours_spend
          = OK two_hours_report) as H by (vm_compute; reflexivity).
  split; [exact H|].
  exact (report_rows_are_coloured _ _ _ 1 _ H eq_refl).
Defined.
